(** * pyqt_app_info.tools: the external-tool detection registry

    A shallow embedding of [src/pyqt_app_info/tools.py] (the dataclasses
    [ToolSpec] and [ToolResult] and the class [ToolRegistry]) together with
    the properties of detection, registration and result ordering. The
    modules that use the registry follow: [_compat] (the frozen state),
    [info] (the records, [to_dict], [summary_lines], [gather_info]) and the
    texts that [qt/about_dialog.py] builds ([_esc] and the two labels).

    Conventions of the embedding.
    - A Python [str] is a [string]; a character is a code point below 256.
    - An [Optional[str]] is an [option string], [None] being Python's [None].
    - A [float] is a binary64 [float]; the module only passes it on.
    - The three standard-library calls the module makes ([shutil.which],
      [Path(..).is_file()], [subprocess.run]) are the fields of an
      environment [Env]; each may return a value or raise. The environment
      answers a call by its arguments alone: the file system and the tools
      do not change while a method runs.
    - A method of [ToolRegistry] is a computation in the monad [M]: it takes
      the state of the object (the dict [self._specs]) and the trace of
      library calls made so far, and gives back a value or an exception
      together with the new state. The trace is there to say which calls a
      method made and in which order.
    - The dict holds specifications as values. The module never assigns to a
      field of a [ToolSpec] or to an element of its list, so nothing in it
      depends on two names standing for one object. *)

From Stdlib Require Import String Ascii List ZArith Bool Lia.
From Stdlib Require Import Floats.PrimFloat.
Import ListNotations.

Local Open Scope string_scope.
Local Open Scope list_scope.

(** ** Python text operations used by the module *)

Module PyStr.

(** The line feed character, Python's ["\n"]. *)
Definition LF : ascii := "010"%char.

(** [c.isspace()] for a code point below 256: the characters U+0009 to
    U+000D, U+001C to U+001F, U+0020, U+0085 and U+00A0. *)
Definition isspace (c : ascii) : bool :=
  let n := nat_of_ascii c in
  (((9 <=? n) && (n <=? 13)) || ((28 <=? n) && (n <=? 32))
   || (n =? 133) || (n =? 160))%nat.

(** [s.lstrip()]: drop the leading whitespace. *)
Fixpoint lstrip (s : string) : string :=
  match s with
  | EmptyString => EmptyString
  | String c s' => if isspace c then lstrip s' else s
  end.

(** [s.rstrip()]: drop the trailing whitespace. *)
Fixpoint rstrip (s : string) : string :=
  match s with
  | EmptyString => EmptyString
  | String c s' =>
      match rstrip s' with
      | EmptyString => if isspace c then EmptyString else String c EmptyString
      | r => String c r
      end
  end.

(** [s.strip()]. *)
Definition strip (s : string) : string := rstrip (lstrip s).

(** [s.split(sep)] for a separator of one character: the pieces of [s]
    between the occurrences of [sep], empty pieces included; the result is
    never the empty list. *)
Fixpoint split (sep : ascii) (s : string) : list string :=
  match s with
  | EmptyString => [EmptyString]
  | String c s' =>
      if Ascii.eqb c sep then EmptyString :: split sep s'
      else match split sep s' with
           | [] => [String c EmptyString]
           | piece :: pieces => String c piece :: pieces
           end
  end.

(** Whether [s] has a line feed in it. *)
Definition has_LF (s : string) : bool :=
  existsb (Ascii.eqb LF) (list_ascii_of_string s).

(** Whether every character of [s] is whitespace. *)
Definition all_space (s : string) : bool :=
  forallb isspace (list_ascii_of_string s).

End PyStr.

(** ** Exceptions and outcomes *)

(** The exception classes a standard-library call of the module is taken to
    raise. [OSError] stands for the class and its subclasses
    ([FileNotFoundError], [PermissionError], ...); [ValueError] likewise
    ([UnicodeDecodeError], the "embedded null byte" error of
    [subprocess]), and is the representative of the classes that the
    [except] clause of [_detect_one] does not list. *)
Inductive lib_exn : Type :=
| TimeoutExpired
| OSError
| ValueError.

(** The exceptions of the embedded program: those of the language itself
    ([KeyError] of a dict lookup, [IndexError] of a list index) and those of
    the library calls. *)
Inductive exn : Type :=
| KeyError (key : string)
| IndexError
| LibError (e : lib_exn).

(** A call either returns a value or raises. *)
Inductive outcome (E A : Type) : Type :=
| Ret (a : A)
| Raise (e : E).
Arguments Ret {E A} a.
Arguments Raise {E A} e.

(** ** The data model *)

(** [@dataclass class ToolSpec]. The defaults of the last three fields are
    ["--version"], [[]] and [5.0]. *)
Module ToolSpec.
Record t : Type := mk {
  name : string;
  command : string;
  version_flag : string;
  fallback_paths : list string;
  version_timeout : float
}.

(** [ToolSpec(name=.., command=..)], the other fields at their defaults. *)
Definition default (name command : string) : t :=
  mk name command "--version" [] 5%float.
End ToolSpec.
Abbreviation ToolSpec := ToolSpec.t.

(** [@dataclass class ToolResult]. [path] and [version] default to [None]
    and [status] to ["not_found"]; [status] is one of ["available"],
    ["not_found"] and ["error"]. *)
Module ToolResult.
Record t : Type := mk {
  name : string;
  path : option string;
  version : option string;
  status : string
}.
End ToolResult.
Abbreviation ToolResult := ToolResult.t.

(** [subprocess.CompletedProcess], as far as the module reads it. *)
Record CompletedProcess : Type := mkCompletedProcess {
  returncode : Z;
  stdout : string;
  stderr : string
}.

(** ** Python's insertion-ordered dict with [str] keys

    The entries are kept in the order in which their keys were first
    inserted. Assigning to a key that is present replaces the value where
    the entry stands; a new key goes to the end. *)
Module PyDict.
Section Dict.
Context {V : Type}.

Definition dict : Type := list (string * V).

(** [d[k]]; [None] is the case in which Python raises [KeyError]. *)
Fixpoint getitem (k : string) (d : dict) : option V :=
  match d with
  | [] => None
  | (k', v) :: d' => if String.eqb k' k then Some v else getitem k d'
  end.

(** [d[k] = v]. *)
Fixpoint setitem (k : string) (v : V) (d : dict) : dict :=
  match d with
  | [] => [(k, v)]
  | (k', v') :: d' =>
      if String.eqb k' k then (k', v) :: d' else (k', v') :: setitem k v d'
  end.

(** [d.keys()] and [d.values()], as lists. *)
Definition keys (d : dict) : list string := map fst d.
Definition values (d : dict) : list V := map snd d.
End Dict.
Arguments dict V : clear implicits.
End PyDict.

(** ** The environment and the state *)

(** The three library calls. [subprocess_run args timeout] is
    [subprocess.run(args, capture_output=True, text=True, timeout=timeout)]. *)
Record Env : Type := mkEnv {
  shutil_which : string -> outcome lib_exn (option string);
  Path_is_file : string -> outcome lib_exn bool;
  subprocess_run : list string -> float -> outcome lib_exn CompletedProcess
}.

(** A library call that was made, with its arguments. *)
Inductive call : Type :=
| Call_which (cmd : string)
| Call_is_file (candidate : string)
| Call_run (args : list string) (timeout : float).

(** The state a method runs in: the attribute [self._specs] of the registry
    and the library calls made so far, oldest first. *)
Record state : Type := mkState {
  _specs : PyDict.dict ToolSpec;
  calls : list call
}.

(** [ToolRegistry()]: [__init__] sets [self._specs = {}]. *)
Definition __init__ : state := mkState [] [].

(** ** The monad of methods *)

Definition M (A : Type) : Type := state -> outcome exn A * state.

Definition ret {A : Type} (a : A) : M A := fun st => (Ret a, st).

Definition raise {A : Type} (e : exn) : M A := fun st => (Raise e, st).

Definition bind {A B : Type} (m : M A) (k : A -> M B) : M B :=
  fun st =>
    match m st with
    | (Ret a, st') => k a st'
    | (Raise e, st') => (Raise e, st')
    end.

Declare Scope py_scope.
Delimit Scope py_scope with py.
Notation "x <- m ;; k" := (bind m (fun x => k))
  (at level 100, m at next level, right associativity) : py_scope.
Local Open Scope py_scope.

(** [try: body  except classes: handler], where [caught] tells whether an
    exception is an instance of one of [classes]. *)
Definition try_except {A : Type} (body : M A) (caught : exn -> bool)
  (handler : M A) : M A :=
  fun st =>
    match body st with
    | (Ret a, st') => (Ret a, st')
    | (Raise e, st') => if caught e then handler st' else (Raise e, st')
    end.

(** [xs[0]]. *)
Definition index0 {A : Type} (xs : list A) : M A :=
  match xs with
  | x :: _ => ret x
  | [] => raise IndexError
  end.

(** [for x in xs: f(x)], collecting the values: a list comprehension. *)
Fixpoint comprehension {A B : Type} (f : A -> M B) (xs : list A) : M (list B) :=
  match xs with
  | [] => ret []
  | x :: xs' =>
      y <- f x ;;
      ys <- comprehension f xs' ;;
      ret (y :: ys)
  end.

(** The state after the library calls [cs] were made, in that order. *)
Definition record (cs : list call) (st : state) : state :=
  mkState (_specs st) (calls st ++ cs).

(** The outcome of a library call, as an outcome of the program. *)
Definition lift {A : Type} (r : outcome lib_exn A) : outcome exn A :=
  match r with
  | Ret a => Ret a
  | Raise e => Raise (LibError e)
  end.

(** A library call: it is recorded, and its exception, if any, is raised. *)
Definition lib_call {A : Type} (c : call) (r : outcome lib_exn A) : M A :=
  fun st => (lift r, record [c] st).

(** A computation is [stateless] when its value does not depend on the state
    it starts in and all it does to the state is to record calls. *)
Definition stateless {A : Type} (m : M A) : Prop :=
  exists r cs, forall st, m st = (r, record cs st).

(** ** class ToolRegistry *)

Section Registry.

Variable env : Env.

Definition which (cmd : string) : M (option string) :=
  lib_call (Call_which cmd) (shutil_which env cmd).

Definition is_file (candidate : string) : M bool :=
  lib_call (Call_is_file candidate) (Path_is_file env candidate).

Definition run (args : list string) (timeout : float) : M CompletedProcess :=
  lib_call (Call_run args timeout) (subprocess_run env args timeout).

(** The loop of [_detect_one] over [spec.fallback_paths]:
    [for candidate in ..: if Path(candidate).is_file(): path = candidate; break],
    entered with [path] being [None]. *)
Fixpoint probe_fallbacks (candidates : list string) : M (option string) :=
  match candidates with
  | [] => ret None
  | candidate :: rest =>
      found <- is_file candidate ;;
      if found then ret (Some candidate) else probe_fallbacks rest
  end.

(** The first part of [_detect_one], which computes [path]. *)
Definition resolve (spec : ToolSpec) : M (option string) :=
  path <- which (ToolSpec.command spec) ;;
  match path with
  | None => probe_fallbacks (ToolSpec.fallback_paths spec)
  | Some _ => ret path
  end.

(** The classes of [except (subprocess.TimeoutExpired, OSError)]. *)
Definition caught (e : exn) : bool :=
  match e with
  | LibError TimeoutExpired | LibError OSError => true
  | _ => false
  end.

(** The second part of [_detect_one]: the [try] statement, run with the
    resolved [path]. *)
Definition probe_version (spec : ToolSpec) (path : string) : M ToolResult :=
  try_except
    (proc <- run [path; ToolSpec.version_flag spec]
                 (ToolSpec.version_timeout spec) ;;
     if (returncode proc =? 0)%Z then
       version <- index0 (PyStr.split PyStr.LF (PyStr.strip (stdout proc))) ;;
       ret (ToolResult.mk (ToolSpec.name spec) (Some path) (Some version)
              "available")
     else
       ret (ToolResult.mk (ToolSpec.name spec) (Some path) None "error"))
    caught
    (ret (ToolResult.mk (ToolSpec.name spec) (Some path) None "error")).

(** [ToolRegistry._detect_one(spec)]. *)
Definition _detect_one (spec : ToolSpec) : M ToolResult :=
  path <- resolve spec ;;
  match path with
  | None => ret (ToolResult.mk (ToolSpec.name spec) None None "not_found")
  | Some path => probe_version spec path
  end.

(** [ToolRegistry.register(self, spec)]: [self._specs[spec.name] = spec]. *)
Definition register (spec : ToolSpec) : M unit :=
  fun st =>
    (Ret tt,
     mkState (PyDict.setitem (ToolSpec.name spec) spec (_specs st)) (calls st)).

(** [self._specs[name]]. *)
Definition lookup (name : string) : M ToolSpec :=
  fun st =>
    match PyDict.getitem name (_specs st) with
    | Some spec => (Ret spec, st)
    | None => (Raise (KeyError name), st)
    end.

(** [ToolRegistry.detect(self, name)]. *)
Definition detect (name : string) : M ToolResult :=
  spec <- lookup name ;;
  _detect_one spec.

(** [ToolRegistry.detect_all(self)]. *)
Definition detect_all : M (list ToolResult) :=
  fun st => comprehension _detect_one (PyDict.values (_specs st)) st.

(** [for s in specs: reg.register(s)], as the tests build a registry. *)
Fixpoint register_each (specs : list ToolSpec) : M unit :=
  match specs with
  | [] => ret tt
  | s :: rest => _ <- register s ;; register_each rest
  end.

End Registry.

(** ** Notions used in the statements *)

(** [status] agrees with the presence of [path] and [version]. *)
Definition status_consistent (r : ToolResult) : Prop :=
  (ToolResult.status r = "not_found" ->
   ToolResult.path r = None /\ ToolResult.version r = None)
  /\ (ToolResult.status r = "available" ->
      ToolResult.path r <> None /\ ToolResult.version r <> None)
  /\ (ToolResult.status r = "error" ->
      ToolResult.path r <> None /\ ToolResult.version r = None).

(** The same, as a test. *)
Definition is_none {A : Type} (o : option A) : bool :=
  match o with None => true | Some _ => false end.

Definition status_consistentb (r : ToolResult) : bool :=
  let absent_path := is_none (ToolResult.path r) in
  let absent_version := is_none (ToolResult.version r) in
  (if String.eqb (ToolResult.status r) "not_found"
   then absent_path && absent_version else true)
  && (if String.eqb (ToolResult.status r) "available"
      then negb absent_path && negb absent_version else true)
  && (if String.eqb (ToolResult.status r) "error"
      then negb absent_path && absent_version else true).

(** [_detect_one(spec)] returns [r], whatever the state it is called in. *)
Definition detects (env : Env) (spec : ToolSpec) (r : ToolResult) : Prop :=
  forall st, fst (_detect_one env spec st) = Ret r.

(** The calls that the detection of [spec] makes do not raise, but for the
    two classes that [_detect_one] catches: the search-path lookup of its
    command does not raise; when that lookup finds nothing, no file check
    that the loop reaches raises (a check is reached when every check
    before it returned [False]); and the invocation of the resolved path
    raises nothing but a timeout or an [OSError]. *)
Definition failures_caught (env : Env) (spec : ToolSpec) : Prop :=
  (forall le, shutil_which env (ToolSpec.command spec) <> Raise le)
  /\ (shutil_which env (ToolSpec.command spec) = Ret None ->
      forall before c after le,
        ToolSpec.fallback_paths spec = before ++ c :: after ->
        (forall c', In c' before -> Path_is_file env c' = Ret false) ->
        Path_is_file env c <> Raise le)
  /\ (forall path le,
        fst (resolve env spec __init__) = Ret (Some path) ->
        subprocess_run env [path; ToolSpec.version_flag spec]
          (ToolSpec.version_timeout spec) = Raise le ->
        le = TimeoutExpired \/ le = OSError).

(** The version as the specification words it: the first line of the
    captured output (the text up to the first line feed), with the
    surrounding whitespace trimmed. *)
Definition first_line (s : string) : string :=
  hd EmptyString (PyStr.split PyStr.LF s).

Definition first_line_trimmed (s : string) : string :=
  PyStr.strip (first_line s).

(** ** Concrete environments and specifications

    [mock_env] follows the mocks of [tests/test_tools.py]: a table of the
    commands on the search path, a list of the files that exist, and a table
    of what running each executable gives. *)

Definition nl : string := String PyStr.LF EmptyString.

Definition NUL : string := String "000"%char EmptyString.

Definition on_search_path : PyDict.dict string :=
  [("exiftool", "/usr/bin/exiftool");
   ("multi", "/usr/bin/multi");
   ("bad", "/usr/bin/bad");
   ("slow", "/usr/bin/slow");
   ("locked", "/usr/bin/locked");
   ("blank", "/usr/bin/blank");
   ("padded", "/usr/bin/padded")].

Definition existing_files : list string :=
  ["/opt/exiftool/exiftool"; "/usr/local/bin/exiftool"].

Definition executions : PyDict.dict (outcome lib_exn CompletedProcess) :=
  [("/usr/bin/exiftool", Ret (mkCompletedProcess 0 ("12.50" ++ nl) ""));
   ("/opt/exiftool/exiftool", Ret (mkCompletedProcess 0 ("12.40" ++ nl) ""));
   ("/usr/local/bin/exiftool", Ret (mkCompletedProcess 0 ("12.30" ++ nl) ""));
   ("/usr/bin/multi",
    Ret (mkCompletedProcess 0 ("1.2.3" ++ nl ++ "Some extra info" ++ nl) ""));
   ("/usr/bin/bad", Ret (mkCompletedProcess 1 "" "usage: bad"));
   ("/usr/bin/slow", Raise TimeoutExpired);
   ("/usr/bin/locked", Raise OSError);
   ("/usr/bin/blank", Ret (mkCompletedProcess 0 (nl ++ "1.2" ++ nl) ""));
   ("/usr/bin/padded",
    Ret (mkCompletedProcess 0 ("1.2 " ++ nl ++ "build 7" ++ nl) ""))]%string.

Definition mock_env : Env :=
  mkEnv
    (fun cmd => Ret (PyDict.getitem cmd on_search_path))
    (fun candidate => Ret (existsb (String.eqb candidate) existing_files))
    (fun args _ =>
       match PyDict.getitem (hd EmptyString args) executions with
       | Some r => r
       | None => Raise OSError
       end).

(** [strict_env] is [mock_env] with one more behaviour of [subprocess.run]:
    an argument with a NUL character in it makes the call raise
    [ValueError] ("embedded null byte"). *)
Definition has_NUL (s : string) : bool :=
  existsb (Ascii.eqb "000"%char) (list_ascii_of_string s).

Definition strict_env : Env :=
  mkEnv
    (shutil_which mock_env)
    (Path_is_file mock_env)
    (fun args timeout =>
       if existsb has_NUL args then Raise ValueError
       else subprocess_run mock_env args timeout).

Definition exiftool_spec : ToolSpec :=
  ToolSpec.mk "ExifTool" "exiftool" "-ver" ["/usr/local/bin/exiftool"] 5%float.

Definition missing_spec : ToolSpec :=
  ToolSpec.mk "Missing" "no_such_tool" "--version" ["/nowhere/tool"] 5%float.

Definition fallback_spec : ToolSpec :=
  ToolSpec.mk "Fallback" "exiftool-local" "-ver"
    ["/nowhere/exiftool"; "/opt/exiftool/exiftool"; "/usr/local/bin/exiftool"]
    5%float.

Definition bad_spec : ToolSpec := ToolSpec.default "Bad" "bad".

Definition slow_spec : ToolSpec :=
  ToolSpec.mk "Slow" "slow" "--version" [] 0.5%float.

Definition multi_spec : ToolSpec := ToolSpec.default "Multi" "multi".

Definition blank_spec : ToolSpec := ToolSpec.default "Blank" "blank".

Definition padded_spec : ToolSpec := ToolSpec.default "Padded" "padded".

(** A specification whose version flag is a NUL character. *)
Definition nul_spec : ToolSpec :=
  ToolSpec.mk "Odd" "exiftool" NUL [] 5%float.

(** A second specification under the name of [exiftool_spec]. *)
Definition exiftool_spec' : ToolSpec :=
  ToolSpec.mk "ExifTool" "exiftool-local" "-ver" ["/opt/exiftool/exiftool"]
    5%float.

(** [guarded_env] is [mock_env] with a directory that may not be searched:
    the file check of a path below it raises [OSError]
    ([PermissionError]). *)
Definition guarded_env : Env :=
  mkEnv
    (shutil_which mock_env)
    (fun candidate =>
       if String.eqb candidate "/root/private/tool" then Raise OSError
       else Path_is_file mock_env candidate)
    (subprocess_run mock_env).


(** A tool with a fallback path in the guarded directory before one that is
    a file. *)
Definition guarded_fallback_spec : ToolSpec :=
  ToolSpec.mk "GuardedFallback" "exiftool-local" "-ver"
    ["/root/private/tool"; "/opt/exiftool/exiftool"] 5%float.

(** The registry after [register] was called on each of [specs]. *)
Definition registry_of (specs : list ToolSpec) : state :=
  snd (register_each specs __init__).

(** ** More Python text operations: [split()], [replace], [join] *)

Module PyText.

(** [s.split()], with no separator: the maximal runs of characters that are
    not whitespace, in order; there is no empty piece. *)
Fixpoint split_ws (s : string) : list string :=
  match s with
  | EmptyString => []
  | String c s' =>
      if PyStr.isspace c then split_ws s'
      else
        match s' with
        | EmptyString => [String c EmptyString]
        | String c' _ =>
            if PyStr.isspace c' then String c EmptyString :: split_ws s'
            else
              match split_ws s' with
              | word :: words => String c word :: words
              | [] => [String c EmptyString]
              end
        end
  end.

(** [s.replace(old, new)] for an [old] of one character. *)
Fixpoint replace (old : ascii) (new : string) (s : string) : string :=
  match s with
  | EmptyString => EmptyString
  | String c s' =>
      if Ascii.eqb c old then (new ++ replace old new s')%string
      else String c (replace old new s')
  end.

(** ["".join(parts)]. *)
Definition join (parts : list string) : string := String.concat "" parts.

(** [bool(s)] for a [str]: the empty string is false. *)
Definition truthy (s : string) : bool := negb (String.eqb s "").

(** [bool(o)] for an [Optional[str]]. *)
Definition truthy_opt (o : option string) : bool :=
  match o with
  | Some s => truthy s
  | None => false
  end.

(** [f"{o}"] for an [Optional[str]]: [None] is formatted as ["None"]. *)
Definition format_opt (o : option string) : string :=
  match o with
  | Some s => s
  | None => "None"
  end.

(** [o or ''] for an [Optional[str]]. *)
Definition or_empty (o : option string) : string :=
  match o with
  | Some s => s
  | None => ""
  end.

(** Whether no character of [s] is whitespace. *)
Definition no_space (s : string) : bool :=
  forallb (fun c => negb (PyStr.isspace c)) (list_ascii_of_string s).

(** The number of occurrences of [c] in [s]: [s.count(c)]. *)
Fixpoint count (c : ascii) (s : string) : nat :=
  match s with
  | EmptyString => 0
  | String c' s' => (if Ascii.eqb c' c then 1 else 0) + count c s'
  end.

End PyText.

(** ** pyqt_app_info._compat *)

(** The values that the attributes [sys.frozen] and [sys._MEIPASS] are taken
    to hold: [None], a [bool] or a [str]. *)
Inductive attr_value : Type :=
| PyNone
| PyBool (b : bool)
| PyStr (s : string).

(** [bool(v)]. *)
Definition attr_truthy (v : attr_value) : bool :=
  match v with
  | PyNone => false
  | PyBool b => b
  | PyStr s => PyText.truthy s
  end.

(** [str(v)]. *)
Definition attr_str (v : attr_value) : string :=
  match v with
  | PyNone => "None"
  | PyBool true => "True"
  | PyBool false => "False"
  | PyStr s => s
  end.

(** What the package reads of the interpreter and the platform. An attribute
    of [sys] that a bundler sets may be missing: [None] in the option.
    [Path_resolve p] is [str(Path(p).resolve())]. *)
Record Host : Type := mkHost {
  sys_frozen : option attr_value;
  sys_MEIPASS : option attr_value;
  sys_executable : string;
  sys_version : string;
  platform_platform : string;
  Path_resolve : string -> outcome lib_exn string
}.

(** [@dataclass(frozen=True) class FrozenState]. *)
Module FrozenState.
Record t : Type := mk {
  is_frozen : bool;
  bundler : option string;
  executable_path : string;
  meipass : option string
}.
End FrozenState.
Abbreviation FrozenState := FrozenState.t.

(** [getattr(sys, name, default)]. *)
Definition getattr (attribute : option attr_value) (default : attr_value)
  : attr_value :=
  match attribute with
  | Some v => v
  | None => default
  end.

(** [v is not None]. *)
Definition is_not_None (v : attr_value) : bool :=
  match v with
  | PyNone => false
  | _ => true
  end.

(** [_compat.detect_frozen()]. *)
Definition detect_frozen (host : Host) : FrozenState :=
  let frozen := getattr (sys_frozen host) (PyBool false) in
  let meipass := getattr (sys_MEIPASS host) PyNone in
  let bundler :=
    if attr_truthy frozen then
      if is_not_None meipass then Some "PyInstaller" else Some "cx_Freeze"
    else None in
  FrozenState.mk
    (attr_truthy frozen)
    bundler
    (sys_executable host)
    (if is_not_None meipass then Some (attr_str meipass) else None).

(** [_compat.resolve_code_location(caller_file)]. *)
Definition resolve_code_location (host : Host) (caller_file : option string)
  : outcome exn string :=
  let state := detect_frozen host in
  if FrozenState.is_frozen state then Ret (FrozenState.executable_path state)
  else
    match caller_file with
    | Some file => lift (Path_resolve host file)
    | None => Ret (FrozenState.executable_path state)
    end.

(** ** pyqt_app_info.info *)

(** [@dataclass class AppIdentity]; every field but [name] defaults to the
    empty string or the empty list. *)
Module AppIdentity.
Record t : Type := mk {
  name : string;
  short_name : string;
  version : string;
  commit_date : string;
  author : string;
  description : string;
  features : list string
}.
End AppIdentity.
Abbreviation AppIdentity := AppIdentity.t.

(** [@dataclass class ExecutionInfo]. *)
Module ExecutionInfo.
Record t : Type := mk {
  python_executable : string;
  python_version : string;
  code_location : string;
  os_platform : string;
  is_frozen : bool;
  execution_mode : string;
  bundler : option string
}.
End ExecutionInfo.
Abbreviation ExecutionInfo := ExecutionInfo.t.

(** [@dataclass class AppInfo]. *)
Module AppInfo.
Record t : Type := mk {
  identity : AppIdentity;
  execution : ExecutionInfo;
  tools : list ToolResult
}.
End AppInfo.
Abbreviation AppInfo := AppInfo.t.

(** The plain values that [to_dict] builds: [None], [bool], [str], [list]
    and [dict] with [str] keys in the order of the dict display. *)
#[warnings="-register-all"]
Inductive plain : Type :=
| VNone
| VBool (b : bool)
| VStr (s : string)
| VList (items : list plain)
| VDict (entries : list (string * plain)).

Definition plain_of_opt (o : option string) : plain :=
  match o with
  | Some s => VStr s
  | None => VNone
  end.

(** [AppInfo.to_dict(self)]. *)
Definition to_dict (self : AppInfo) : plain :=
  let identity := AppInfo.identity self in
  let execution := AppInfo.execution self in
  VDict
    [("identity",
      VDict
        [("name", VStr (AppIdentity.name identity));
         ("short_name", VStr (AppIdentity.short_name identity));
         ("version", VStr (AppIdentity.version identity));
         ("commit_date", VStr (AppIdentity.commit_date identity));
         ("author", VStr (AppIdentity.author identity));
         ("description", VStr (AppIdentity.description identity));
         ("features", VList (map VStr (AppIdentity.features identity)))]);
     ("execution",
      VDict
        [("python_executable",
          VStr (ExecutionInfo.python_executable execution));
         ("python_version", VStr (ExecutionInfo.python_version execution));
         ("code_location", VStr (ExecutionInfo.code_location execution));
         ("os_platform", VStr (ExecutionInfo.os_platform execution));
         ("is_frozen", VBool (ExecutionInfo.is_frozen execution));
         ("execution_mode", VStr (ExecutionInfo.execution_mode execution));
         ("bundler", plain_of_opt (ExecutionInfo.bundler execution))]);
     ("tools",
      VList
        (map (fun t =>
                VDict
                  [("name", VStr (ToolResult.name t));
                   ("path", plain_of_opt (ToolResult.path t));
                   ("version", plain_of_opt (ToolResult.version t));
                   ("status", VStr (ToolResult.status t))])
           (AppInfo.tools self)))].

Local Open Scope string_scope.

(** The line that the loop of [summary_lines] appends for one tool. *)
Definition tool_line (tool : ToolResult) : string :=
  if String.eqb (ToolResult.status tool) "available" then
    "  " ++ ToolResult.name tool ++ ":  v"
    ++ PyText.format_opt (ToolResult.version tool)
    ++ "  (" ++ PyText.format_opt (ToolResult.path tool) ++ ")"
  else if PyText.truthy_opt (ToolResult.path tool) then
    "  " ++ ToolResult.name tool ++ ":  found but version unavailable  ("
    ++ PyText.format_opt (ToolResult.path tool) ++ ")"
  else
    "  " ++ ToolResult.name tool ++ ":  not found".

(** The title that [summary_lines] and the heading of the dialog show. *)
Definition title_of (ident : AppIdentity) : string :=
  if PyText.truthy (AppIdentity.short_name ident)
  then AppIdentity.name ident ++ " [ " ++ AppIdentity.short_name ident ++ " ]"
  else AppIdentity.name ident.

(** [AppInfo.summary_lines]: the lines appended to [lines], in order. *)
Definition summary_lines (self : AppInfo) : list string :=
  let ident := AppInfo.identity self in
  let exe := AppInfo.execution self in
  List.concat
    [[title_of ident];
     if PyText.truthy (AppIdentity.version ident)
     then ["  Version:      " ++ AppIdentity.version ident] else [];
     if PyText.truthy (AppIdentity.commit_date ident)
     then ["  Commit Date:  " ++ AppIdentity.commit_date ident] else [];
     if PyText.truthy (AppIdentity.description ident)
     then ["  " ++ AppIdentity.description ident] else [];
     [""];
     ["  Execution:    " ++ ExecutionInfo.execution_mode exe];
     ["  Code:         " ++ ExecutionInfo.code_location exe];
     ["  Python:       " ++ ExecutionInfo.python_executable exe];
     ["  Python Ver:   " ++ ExecutionInfo.python_version exe];
     ["  OS:           " ++ ExecutionInfo.os_platform exe];
     map tool_line (AppInfo.tools self)].

(** An outcome, as a computation. *)
Definition of_outcome {A : Type} (r : outcome exn A) : M A :=
  fun st => (r, st).

(** The [ExecutionInfo(..)] that [gather_info] builds, given the two of its
    arguments whose evaluation can raise. *)
Definition execution_of (host : Host) (python_version code_location : string)
  : ExecutionInfo :=
  let frozen_state := detect_frozen host in
  ExecutionInfo.mk
    (sys_executable host)
    python_version
    code_location
    (platform_platform host)
    (FrozenState.is_frozen frozen_state)
    (if FrozenState.is_frozen frozen_state
     then "Compiled executable" else "Python source")
    (FrozenState.bundler frozen_state).

(** [info.gather_info(identity, registry=.., caller_file=..)]. The argument
    [registry] is [None] or the registry whose state the monad carries,
    [Some tt]. The arguments of [ExecutionInfo(..)] are evaluated in the
    order in which they are written: [sys.version.split()[0]] before
    [resolve_code_location(caller_file)]. *)
Definition gather_info (env : Env) (host : Host) (identity : AppIdentity)
  (registry : option unit) (caller_file : option string) : M AppInfo :=
  (python_version <- index0 (PyText.split_ws (sys_version host)) ;;
   code_location <- of_outcome (resolve_code_location host caller_file) ;;
   let execution := execution_of host python_version code_location in
   tools <- match registry with
            | Some _ => detect_all env
            | None => ret []
            end ;;
   ret (AppInfo.mk identity execution tools))%py.

(** ** pyqt_app_info.qt.about_dialog: the texts of the dialog *)

(** [_esc(text)]. *)
Definition _esc (text : string) : string :=
  PyText.replace ">" "&gt;"
    (PyText.replace "<" "&lt;" (PyText.replace "&" "&amp;" text)).

(** What [_esc] makes of one character. *)
Definition escape_char (c : ascii) : string :=
  if Ascii.eqb c "&" then "&amp;"
  else if Ascii.eqb c "<" then "&lt;"
  else if Ascii.eqb c ">" then "&gt;"
  else String c EmptyString.

(** The argument of [setWindowTitle] in [_build_ui]. *)
Definition window_title (app_info : AppInfo) : string :=
  let ident := AppInfo.identity app_info in
  if PyText.truthy (AppIdentity.short_name ident)
  then "About " ++ AppIdentity.name ident
       ++ " [ " ++ AppIdentity.short_name ident ++ " ]"
  else "About " ++ AppIdentity.name ident.

(** The text of the identity label of [_build_ui]: ["".join(parts)]. *)
Definition identity_html (app_info : AppInfo) : string :=
  let ident := AppInfo.identity app_info in
  let heading := title_of ident in
  PyText.join
    (List.concat
       [["<h3>" ++ _esc heading ++ "</h3>"];
        if PyText.truthy (AppIdentity.version ident)
        then ["<p><b>Version:</b> " ++ _esc (AppIdentity.version ident)
              ++ "</p>"]
        else [];
        if PyText.truthy (AppIdentity.commit_date ident)
        then ["<p><b>Commit Date:</b> "
              ++ _esc (AppIdentity.commit_date ident) ++ "</p>"]
        else [];
        if PyText.truthy (AppIdentity.description ident)
        then ["<br><p>" ++ _esc (AppIdentity.description ident) ++ "</p>"]
        else [];
        match AppIdentity.features ident with
        | [] => []
        | features =>
            List.concat
              [["<br><p><b>Features:</b></p><ul>"];
               map (fun feat => "<li>" ++ _esc feat ++ "</li>") features;
               ["</ul>"]]
        end]).

(** What the loop of [_build_ui] over the tools appends for one tool. *)
Definition tool_html (tool : ToolResult) : string :=
  if String.eqb (ToolResult.status tool) "available" then
    "<b>" ++ _esc (ToolResult.name tool) ++ ":</b> v"
    ++ _esc (PyText.or_empty (ToolResult.version tool)) ++ "<br>"
    ++ _esc (PyText.or_empty (ToolResult.path tool)) ++ "<br><br>"
  else if PyText.truthy_opt (ToolResult.path tool) then
    "<b>" ++ _esc (ToolResult.name tool)
    ++ ":</b> Found but version unavailable<br>"
    ++ _esc (PyText.or_empty (ToolResult.path tool)) ++ "<br><br>"
  else
    "<b>" ++ _esc (ToolResult.name tool) ++ ":</b> Not found in PATH<br><br>".

(** Whether the dialog and the summary show a path for the tool: the first
    two branches of their [if] statements. *)
Definition shows_path (tool : ToolResult) : bool :=
  String.eqb (ToolResult.status tool) "available"
  || PyText.truthy_opt (ToolResult.path tool).

(** The double quote character, as a string. *)
Definition DQUOTE : string := String "034"%char EmptyString.

(** The text of the technical label of [_build_ui]. *)
Definition tech_html (app_info : AppInfo) : string :=
  let exe := AppInfo.execution app_info in
  PyText.join
    (List.concat
       [["<p style=" ++ DQUOTE ++ "font-size: 9pt; color: #666;" ++ DQUOTE
         ++ ">";
         "<b>Execution Mode:</b> " ++ _esc (ExecutionInfo.execution_mode exe)
         ++ "<br><br>";
         "<b>Code Location:</b><br>" ++ _esc (ExecutionInfo.code_location exe)
         ++ "<br><br>";
         "<b>Python Executable:</b><br>"
         ++ _esc (ExecutionInfo.python_executable exe) ++ "<br><br>"];
        map tool_html (AppInfo.tools app_info);
        ["<b>OS:</b> " ++ _esc (ExecutionInfo.os_platform exe)];
        ["</p>"]]).

Local Open Scope list_scope.

(** ** Notions used in the statements about [info] and the dialog *)

Local Open Scope string_scope.

(** The summary line of a result of detection: one of three, by the status
    of the result, and with the path and the version themselves in it. *)
Definition detected_line (r : ToolResult) : Prop :=
  (exists p v,
     r = ToolResult.mk (ToolResult.name r) (Some p) (Some v) "available"
     /\ tool_line r
        = "  " ++ ToolResult.name r ++ ":  v" ++ v ++ "  (" ++ p ++ ")")
  \/ (exists p,
        r = ToolResult.mk (ToolResult.name r) (Some p) None "error"
        /\ tool_line r
           = if PyText.truthy p
             then "  " ++ ToolResult.name r
                  ++ ":  found but version unavailable  (" ++ p ++ ")"
             else "  " ++ ToolResult.name r ++ ":  not found")
  \/ (r = ToolResult.mk (ToolResult.name r) None None "not_found"
      /\ tool_line r = "  " ++ ToolResult.name r ++ ":  not found").

(** The number of the characters of [s] that [_esc] replaces. *)
Definition specials (s : string) : nat :=
  PyText.count "&" s + PyText.count "<" s + PyText.count ">" s.

Local Open Scope list_scope.

(** ** Concrete hosts and application information *)

(** A process run from source: the bundler attributes of [sys] are not set,
    and [Path.resolve] makes a path absolute under the working directory. *)
Definition source_host : Host :=
  mkHost None None "/usr/bin/python3"
    "3.12.0 (main, Oct  2 2023, 12:03:24) [GCC 12.2.0]" "Linux-6.1-x86_64"
    (fun file => Ret ("/home/user/" ++ file)%string).

(** A process frozen by PyInstaller; [Path.resolve] fails. *)
Definition frozen_host : Host :=
  mkHost (Some (PyBool true)) (Some (PyStr "/tmp/_MEI1234")) "/opt/app/app"
    "3.12.0 (main, Oct  2 2023, 12:03:24) [GCC 12.2.0]" "Linux-6.1-x86_64"
    (fun _ => Raise OSError).

(** A host whose [sys.version] is blank. *)
Definition blank_host : Host :=
  mkHost None None "/usr/bin/python3" "  " "Linux-6.1-x86_64"
    (fun file => Ret file).

Definition demo_identity : AppIdentity :=
  AppIdentity.mk "Demo App" "DA" "2.0" "2025-06-01" "" "A demo" ["Feature A"].

Definition demo_info : AppInfo :=
  AppInfo.mk demo_identity
    (ExecutionInfo.mk "/usr/bin/python3" "3.12.0" "/home/user/app.py"
       "Linux-6.1" false "Python source" None)
    [ToolResult.mk "ExifTool" (Some "/usr/bin/exiftool") (Some "12.50")
       "available";
     ToolResult.mk "Missing" None None "not_found"].

(** ** Facts about the text operations *)

Module PyStrFacts.
Import PyStr.
Local Open Scope string_scope.

Lemma has_LF_cons (c : ascii) (s : string) :
  has_LF (String c s) = Ascii.eqb c LF || has_LF s.
Proof.
  unfold has_LF. cbn [list_ascii_of_string existsb].
  rewrite (Ascii.eqb_sym LF c). reflexivity.
Qed.

Lemma split_not_nil (sep : ascii) (s : string) : split sep s <> [].
Proof.
  induction s as [|c s IH]; simpl; [discriminate|].
  destruct (Ascii.eqb c sep); [discriminate|].
  destruct (split sep s); discriminate.
Qed.

(** The first piece of a split has no separator in it, and the text is
    that piece, followed, if anything follows, by a separator. *)
Lemma split_head (s : string) :
  exists v pieces,
    split LF s = v :: pieces /\
    has_LF v = false /\
    (s = v \/ exists rest, s = v ++ String LF rest).
Proof.
  induction s as [|c s IH]; simpl.
  - exists EmptyString, []. repeat split; auto.
  - destruct (Ascii.eqb c LF) eqn:E.
    + apply Ascii.eqb_eq in E. subst c.
      exists EmptyString, (split LF s). repeat split; auto.
      right. exists s. reflexivity.
    + destruct IH as (v & pieces & Hs & Hv & Hshape).
      rewrite Hs. exists (String c v), pieces. repeat split.
      * rewrite has_LF_cons, E. exact Hv.
      * destruct Hshape as [-> | [rest ->]]; [left | right; exists rest];
          reflexivity.
Qed.

Lemma split_prefix (x rest : string) :
  has_LF x = false ->
  exists pieces, split LF (x ++ String LF rest) = x :: pieces.
Proof.
  induction x as [|c x IH]; simpl; intros H.
  - eauto.
  - rewrite has_LF_cons in H. apply orb_false_iff in H.
    destruct H as [Hc Hx]. rewrite Hc.
    destruct (IH Hx) as [pieces ->]. eauto.
Qed.

Lemma split_no_LF (x : string) : has_LF x = false -> split LF x = [x].
Proof.
  induction x as [|c x IH]; simpl; intros H; [reflexivity|].
  rewrite has_LF_cons in H. apply orb_false_iff in H.
  destruct H as [Hc Hx]. rewrite Hc, (IH Hx). reflexivity.
Qed.

(** [lstrip] leaves a text that does not start with whitespace. *)
Lemma lstrip_head (s : string) :
  match lstrip s with
  | EmptyString => True
  | String c _ => isspace c = false
  end.
Proof.
  induction s as [|c s IH]; simpl; [exact I|].
  destruct (isspace c) eqn:E; [exact IH | exact E].
Qed.

Lemma rstrip_empty_head (s : string) :
  rstrip s = EmptyString ->
  match s with EmptyString => True | String c _ => isspace c = true end.
Proof.
  destruct s as [|c s]; simpl; [trivial|].
  destruct (rstrip s); [|discriminate].
  destruct (isspace c); [trivial | discriminate].
Qed.

(** [rstrip] keeps the first character of a text that does not start with
    whitespace. *)
Lemma rstrip_head (c : ascii) (s : string) :
  isspace c = false -> exists r, rstrip (String c s) = String c r.
Proof.
  intros H. simpl. destruct (rstrip s); rewrite ?H; eauto.
Qed.

Lemma lstrip_length (s : string) : String.length (lstrip s) <= String.length s.
Proof.
  induction s as [|c s IH]; simpl; [lia|].
  destruct (isspace c); simpl; lia.
Qed.

Lemma rstrip_length (s : string) : String.length (rstrip s) <= String.length s.
Proof.
  induction s as [|c s IH]; simpl; [lia|].
  destruct (rstrip s); [destruct (isspace c)|]; simpl in *; lia.
Qed.

(** [lstrip] and a text of the same length: nothing was dropped. *)
Lemma lstrip_fixed (s : string) :
  String.length (lstrip s) = String.length s -> lstrip s = s.
Proof.
  destruct s as [|c s]; simpl; [reflexivity|].
  destruct (isspace c); [|reflexivity].
  intros H. pose proof (lstrip_length s). lia.
Qed.

(** A text that [strip] leaves alone is left alone by both halves. *)
Lemma strip_fixed (s : string) :
  strip s = s -> lstrip s = s /\ rstrip s = s.
Proof.
  unfold strip. intros H.
  assert (Hl : lstrip s = s).
  { apply lstrip_fixed.
    pose proof (rstrip_length (lstrip s)) as H1.
    pose proof (lstrip_length s) as H2.
    rewrite H in H1. lia. }
  split; [exact Hl | rewrite Hl in H; exact H].
Qed.

(** [rstrip] does not touch a prefix that has no trailing whitespace. *)
Lemma rstrip_app (x t : string) :
  rstrip x = x -> rstrip (x ++ t) = x ++ rstrip t.
Proof.
  induction x as [|c x IH]; simpl; intros H; [reflexivity|].
  destruct (rstrip x) as [|c' r] eqn:Ex.
  - destruct (isspace c) eqn:Ec; [discriminate|].
    injection H as <-. simpl.
    destruct (rstrip t); reflexivity.
  - injection H as Hx. rewrite (IH Hx).
    destruct x as [|c'' x']; [discriminate|]. reflexivity.
Qed.

(** What [strip] leaves of a text [x ++ "\n" ++ rest] whose first line
    [x] is not empty and has no whitespace at either end. *)
Lemma strip_first_line (x rest : string) :
  x <> EmptyString -> strip x = x ->
  strip (x ++ String LF rest) = x
  \/ exists rest', strip (x ++ String LF rest) = x ++ String LF rest'.
Proof.
  intros Hne Hx. apply strip_fixed in Hx. destruct Hx as [Hl Hr].
  assert (Hlx : lstrip (x ++ String LF rest) = x ++ String LF rest).
  { destruct x as [|c x]; [congruence|]. simpl in *.
    destruct (isspace c) eqn:Ec; [|reflexivity].
    exfalso. pose proof (lstrip_length x) as Hlen.
    rewrite Hl in Hlen. simpl in Hlen. lia. }
  unfold strip. rewrite Hlx, (rstrip_app _ _ Hr). simpl.
  destruct (rstrip rest) as [|c r].
  - left. clear. induction x; simpl; congruence.
  - right. eauto.
Qed.

(** [strip] leaves a text that does not start with whitespace. *)
Lemma strip_head (s : string) :
  match strip s with
  | EmptyString => True
  | String c _ => isspace c = false
  end.
Proof.
  unfold strip. pose proof (lstrip_head s) as H.
  destruct (lstrip s) as [|c t]; [exact I|].
  destruct (rstrip_head c t H) as [r ->]. exact H.
Qed.

Lemma lstrip_all_space (s : string) :
  lstrip s = EmptyString <-> all_space s = true.
Proof.
  unfold all_space. induction s as [|c s IH]; simpl; [tauto|].
  destruct (isspace c); simpl; [exact IH|].
  split; discriminate.
Qed.

Lemma strip_all_space (s : string) :
  strip s = EmptyString <-> all_space s = true.
Proof.
  rewrite <- lstrip_all_space. unfold strip. split; intros H.
  - pose proof (lstrip_head s) as Hh. apply rstrip_empty_head in H.
    destruct (lstrip s); [reflexivity | congruence].
  - rewrite H. reflexivity.
Qed.

End PyStrFacts.

(** ** Facts about the dict *)

Module PyDictFacts.
Section Facts.
Context {V : Type}.
Implicit Types (d : PyDict.dict V) (k : string) (v : V).

Lemma getitem_setitem_same k v d :
  PyDict.getitem k (PyDict.setitem k v d) = Some v.
Proof.
  induction d as [|[k' v'] d IH]; simpl.
  - rewrite String.eqb_refl. reflexivity.
  - destruct (String.eqb k' k) eqn:E; simpl; rewrite E; auto.
Qed.

Lemma getitem_setitem_other k k' v d :
  k' <> k -> PyDict.getitem k' (PyDict.setitem k v d) = PyDict.getitem k' d.
Proof.
  intros Hne. induction d as [|[k0 v0] d IH]; simpl.
  - destruct (String.eqb k k') eqn:E; [|reflexivity].
    apply String.eqb_eq in E. congruence.
  - destruct (String.eqb k0 k) eqn:E; simpl.
    + apply String.eqb_eq in E. subst k0.
      destruct (String.eqb k k') eqn:E'; [|reflexivity].
      apply String.eqb_eq in E'. congruence.
    + rewrite IH. reflexivity.
Qed.


(** A key that is absent goes to the end. *)
Lemma setitem_new k v d :
  ~ In k (PyDict.keys d) -> PyDict.setitem k v d = d ++ [(k, v)].
Proof.
  induction d as [|[k' v'] d IH]; simpl; intros H; [reflexivity|].
  destruct (String.eqb k' k) eqn:E.
  - apply String.eqb_eq in E. tauto.
  - rewrite IH by tauto. reflexivity.
Qed.

(** A key that is present keeps its place: only its value changes. *)
Lemma setitem_present k v d :
  In k (PyDict.keys d) ->
  exists d1 old d2,
    d = d1 ++ (k, old) :: d2 /\
    ~ In k (PyDict.keys d1) /\
    PyDict.setitem k v d = d1 ++ (k, v) :: d2.
Proof.
  induction d as [|[k' v'] d IH]; simpl; intros H; [contradiction|].
  destruct (String.eqb k' k) eqn:E.
  - apply String.eqb_eq in E. subst k'.
    exists [], v', d. simpl. tauto.
  - apply String.eqb_neq in E.
    destruct H as [H | H]; [congruence|].
    destruct (IH H) as (d1 & old & d2 & -> & Hd1 & ->).
    exists ((k', v') :: d1), old, d2. simpl. intuition congruence.
Qed.

Lemma keys_setitem_present k v d :
  In k (PyDict.keys d) -> PyDict.keys (PyDict.setitem k v d) = PyDict.keys d.
Proof.
  intros H. destruct (setitem_present k v d H) as (d1 & old & d2 & -> & _ & ->).
  unfold PyDict.keys. rewrite !map_app. reflexivity.
Qed.

End Facts.
End PyDictFacts.

(** ** Facts about the monad and the methods *)

Lemma record_record (cs1 cs2 : list call) (st : state) :
  record cs2 (record cs1 st) = record (cs1 ++ cs2) st.
Proof. unfold record. simpl. rewrite app_assoc. reflexivity. Qed.

Lemma record_nil (st : state) : record [] st = st.
Proof. destruct st. unfold record. simpl. rewrite app_nil_r. reflexivity. Qed.

Lemma stateless_ret {A : Type} (a : A) : stateless (ret a).
Proof. exists (Ret a), []. intros st. rewrite record_nil. reflexivity. Qed.

Lemma stateless_raise {A : Type} (e : exn) : stateless (@raise A e).
Proof. exists (Raise e), []. intros st. rewrite record_nil. reflexivity. Qed.

Lemma stateless_lib_call {A : Type} (c : call) (r : outcome lib_exn A) :
  stateless (lib_call c r).
Proof. unfold stateless, lib_call. eauto. Qed.

Lemma stateless_bind {A B : Type} (m : M A) (k : A -> M B) :
  stateless m -> (forall a, stateless (k a)) -> stateless (bind m k).
Proof.
  intros (r & cs & Hm) Hk. unfold bind. destruct r as [a | e].
  - destruct (Hk a) as (r' & cs' & Hka). exists r', (cs ++ cs').
    intros st. rewrite Hm, Hka, record_record. reflexivity.
  - exists (Raise e), cs. intros st. rewrite Hm. reflexivity.
Qed.

Lemma stateless_try_except {A : Type} (body handler : M A) (c : exn -> bool) :
  stateless body -> stateless handler -> stateless (try_except body c handler).
Proof.
  intros (r & cs & Hb) (r' & cs' & Hh). unfold try_except.
  destruct r as [a | e].
  - exists (Ret a), cs. intros st. rewrite Hb. reflexivity.
  - destruct (c e) eqn:Ec.
    + exists r', (cs ++ cs'). intros st. rewrite Hb, Ec, Hh, record_record.
      reflexivity.
    + exists (Raise e), cs. intros st. rewrite Hb, Ec. reflexivity.
Qed.

Lemma stateless_index0 {A : Type} (xs : list A) : stateless (index0 xs).
Proof. destruct xs; [apply stateless_raise | apply stateless_ret]. Qed.

Lemma stateless_comprehension {A B : Type} (f : A -> M B) (xs : list A) :
  (forall x, stateless (f x)) -> stateless (comprehension f xs).
Proof.
  intros Hf. induction xs as [|x xs IH]; simpl.
  - apply stateless_ret.
  - apply stateless_bind; [apply Hf|]. intros y.
    apply stateless_bind; [exact IH|]. intros ys. apply stateless_ret.
Qed.

Lemma stateless_specs {A : Type} (m : M A) (st : state) :
  stateless m -> _specs (snd (m st)) = _specs st.
Proof. intros (r & cs & H). rewrite H. reflexivity. Qed.

Lemma stateless_value {A : Type} (m : M A) (st st' : state) :
  stateless m -> fst (m st) = fst (m st').
Proof. intros (r & cs & H). rewrite !H. reflexivity. Qed.

Create HintDb stateless.
#[local] Hint Resolve stateless_ret stateless_raise stateless_lib_call
  stateless_index0 : stateless.

Section RegistryFacts.

Variable env : Env.

Lemma stateless_probe_fallbacks (candidates : list string) :
  stateless (probe_fallbacks env candidates).
Proof.
  induction candidates as [|c rest IH]; simpl; auto with stateless.
  apply stateless_bind; [unfold is_file; auto with stateless|].
  intros [|]; auto with stateless.
Qed.

Lemma stateless_resolve (spec : ToolSpec) : stateless (resolve env spec).
Proof.
  unfold resolve. apply stateless_bind; [unfold which; auto with stateless|].
  intros [p|]; [auto with stateless | apply stateless_probe_fallbacks].
Qed.

Lemma stateless_probe_version (spec : ToolSpec) (path : string) :
  stateless (probe_version env spec path).
Proof.
  unfold probe_version. apply stateless_try_except; auto with stateless.
  apply stateless_bind; [unfold run; auto with stateless|]. intros proc.
  destruct (returncode proc =? 0)%Z; auto with stateless.
  apply stateless_bind; auto with stateless.
Qed.

Lemma stateless_detect_one (spec : ToolSpec) : stateless (_detect_one env spec).
Proof.
  unfold _detect_one. apply stateless_bind; [apply stateless_resolve|].
  intros [p|]; [apply stateless_probe_version | auto with stateless].
Qed.

(** *** The methods, case by case *)


(** The loop stops at the first candidate that is a file. *)
Lemma probe_fallbacks_hit (before after : list string) (c : string)
  (st : state) :
  (forall c', In c' before -> Path_is_file env c' = Ret false) ->
  Path_is_file env c = Ret true ->
  probe_fallbacks env (before ++ c :: after) st
  = (Ret (Some c), record (map Call_is_file (before ++ [c])) st).
Proof.
  revert st. induction before as [|c0 rest IH]; intros st H Hc; simpl.
  - unfold bind, is_file, lib_call. rewrite Hc. reflexivity.
  - unfold bind, is_file, lib_call. rewrite (H c0) by (left; reflexivity).
    simpl. rewrite IH by (auto; intros; apply H; right; assumption).
    rewrite record_record. reflexivity.
Qed.

(** The loop raises what the first failing check raises. *)
Lemma probe_fallbacks_raise (before after : list string) (c : string)
  (le : lib_exn) (st : state) :
  (forall c', In c' before -> Path_is_file env c' = Ret false) ->
  Path_is_file env c = Raise le ->
  probe_fallbacks env (before ++ c :: after) st
  = (Raise (LibError le), record (map Call_is_file (before ++ [c])) st).
Proof.
  revert st. induction before as [|c0 rest IH]; intros st H Hc; simpl.
  - unfold bind, is_file, lib_call. rewrite Hc. reflexivity.
  - unfold bind, is_file, lib_call. rewrite (H c0) by (left; reflexivity).
    simpl. rewrite IH by (auto; intros; apply H; right; assumption).
    rewrite record_record. reflexivity.
Qed.

(** Whatever the loop gives back comes from one of the candidates. *)
Lemma probe_fallbacks_inv (candidates : list string) (st : state) :
  match fst (probe_fallbacks env candidates st) with
  | Ret None => True
  | Ret (Some c) => In c candidates /\ Path_is_file env c = Ret true
  | Raise e =>
      exists c le,
        e = LibError le /\ In c candidates /\ Path_is_file env c = Raise le
  end.
Proof.
  revert st. induction candidates as [|c rest IH]; intros st; simpl; auto.
  unfold bind, is_file, lib_call.
  destruct (Path_is_file env c) as [[|]|le] eqn:Hc; simpl.
  - auto.
  - specialize (IH (record [Call_is_file c] st)).
    destruct (fst (probe_fallbacks env rest _)) as [[c'|]|e]; auto.
    + tauto.
    + destruct IH as (c' & le & -> & Hin & Hle). eauto 6.
  - eauto 6.
Qed.

Lemma resolve_eq (spec : ToolSpec) (st : state) :
  resolve env spec st
  = match shutil_which env (ToolSpec.command spec) with
    | Ret (Some p) => (Ret (Some p), record [Call_which (ToolSpec.command spec)] st)
    | Ret None =>
        probe_fallbacks env (ToolSpec.fallback_paths spec)
          (record [Call_which (ToolSpec.command spec)] st)
    | Raise le =>
        (Raise (LibError le), record [Call_which (ToolSpec.command spec)] st)
    end.
Proof.
  unfold resolve, bind, which, lib_call.
  destruct (shutil_which env (ToolSpec.command spec)) as [[p|]|le];
    reflexivity.
Qed.

(** The [try] statement: the version is the first piece of the stripped
    output (the index never fails), and only the listed classes are
    turned into a result. *)
Lemma probe_version_eq (spec : ToolSpec) (path : string) (st : state) :
  probe_version env spec path st
  = (match subprocess_run env [path; ToolSpec.version_flag spec]
             (ToolSpec.version_timeout spec) with
     | Ret proc =>
         if (returncode proc =? 0)%Z then
           Ret (ToolResult.mk (ToolSpec.name spec) (Some path)
                  (Some (hd EmptyString
                           (PyStr.split PyStr.LF (PyStr.strip (stdout proc)))))
                  "available")
         else Ret (ToolResult.mk (ToolSpec.name spec) (Some path) None "error")
     | Raise le =>
         if caught (LibError le) then
           Ret (ToolResult.mk (ToolSpec.name spec) (Some path) None "error")
         else Raise (LibError le)
     end,
     record [Call_run [path; ToolSpec.version_flag spec]
               (ToolSpec.version_timeout spec)] st).
Proof.
  unfold probe_version, try_except, bind, run, lib_call.
  destruct (subprocess_run env _ _) as [proc|le]; simpl.
  - destruct (returncode proc =? 0)%Z; [|reflexivity].
    pose proof (PyStrFacts.split_not_nil PyStr.LF (PyStr.strip (stdout proc)))
      as Hne.
    destruct (PyStr.split PyStr.LF (PyStr.strip (stdout proc)));
      [congruence | reflexivity].
  - destruct le; reflexivity.
Qed.

Lemma detect_one_eq (spec : ToolSpec) (st : state) :
  _detect_one env spec st
  = match resolve env spec st with
    | (Ret (Some path), st') => probe_version env spec path st'
    | (Ret None, st') =>
        (Ret (ToolResult.mk (ToolSpec.name spec) None None "not_found"), st')
    | (Raise e, st') => (Raise e, st')
    end.
Proof.
  unfold _detect_one, bind.
  destruct (resolve env spec st) as [[[p|]|e] st']; reflexivity.
Qed.

Lemma detect_registered (name : string) (spec : ToolSpec) (st : state) :
  PyDict.getitem name (_specs st) = Some spec ->
  detect env name st = _detect_one env spec st.
Proof. intros H. unfold detect, bind, lookup. rewrite H. reflexivity. Qed.

Lemma detect_unregistered (name : string) (st : state) :
  PyDict.getitem name (_specs st) = None ->
  detect env name st = (Raise (KeyError name), st).
Proof. intros H. unfold detect, bind, lookup. rewrite H. reflexivity. Qed.

End RegistryFacts.

(** ** Facts about registration *)


Lemma register_each_value (specs : list ToolSpec) (st : state) :
  fst (register_each specs st) = Ret tt.
Proof.
  revert st. induction specs as [|s rest IH]; intros st; [reflexivity|].
  simpl. unfold bind, register. apply IH.
Qed.

Lemma register_each_calls (specs : list ToolSpec) (st : state) :
  calls (snd (register_each specs st)) = calls st.
Proof.
  revert st. induction specs as [|s rest IH]; intros st; [reflexivity|].
  simpl. unfold bind, register. rewrite IH. reflexivity.
Qed.

Lemma register_each_app (specs : list ToolSpec) (s : ToolSpec) (st : state) :
  snd (register_each (specs ++ [s]) st)
  = snd (register s (snd (register_each specs st))).
Proof.
  revert st. induction specs as [|s0 rest IH]; intros st; [reflexivity|].
  simpl. unfold bind at 1 3. unfold register at 1 3. apply IH.
Qed.


(** The name of a registered specification maps to the specification that
    was registered under it last. *)
Lemma register_each_getitem (specs : list ToolSpec) (st : state) (name : string) :
  PyDict.getitem name (_specs (snd (register_each specs st)))
  = match find (fun s => String.eqb (ToolSpec.name s) name) (rev specs) with
    | Some s => Some s
    | None => PyDict.getitem name (_specs st)
    end.
Proof.
  revert st. induction specs as [|s rest IH] using rev_ind; intros st.
  - reflexivity.
  - rewrite register_each_app, rev_app_distr. simpl.
    destruct (String.eqb (ToolSpec.name s) name) eqn:E.
    + apply String.eqb_eq in E. subst name.
      apply PyDictFacts.getitem_setitem_same.
    + apply String.eqb_neq in E.
      rewrite PyDictFacts.getitem_setitem_other by congruence. apply IH.
Qed.

(** Specifications with distinct names stand in the order of registration. *)
Lemma register_each_distinct (specs : list ToolSpec) :
  NoDup (map ToolSpec.name specs) ->
  _specs (snd (register_each specs __init__))
  = map (fun s => (ToolSpec.name s, s)) specs.
Proof.
  induction specs as [|s rest IH] using rev_ind; intros Hnd; [reflexivity|].
  rewrite map_app in Hnd. simpl in Hnd.
  apply NoDup_remove in Hnd. rewrite app_nil_r in Hnd. destruct Hnd as [Hnd Hnew].
  rewrite register_each_app. simpl. rewrite (IH Hnd).
  rewrite PyDictFacts.setitem_new.
  - rewrite map_app. reflexivity.
  - unfold PyDict.keys. rewrite map_map. simpl. exact Hnew.
Qed.

(** ** Facts about the comprehension of [detect_all] *)

Lemma comprehension_Forall {A B : Type} (f : A -> M B) (P : B -> Prop)
  (xs : list A) (st : state) (ys : list B) :
  (forall x s y, In x xs -> fst (f x s) = Ret y -> P y) ->
  fst (comprehension f xs st) = Ret ys -> Forall P ys.
Proof.
  revert st ys. induction xs as [|x xs IH]; intros st ys Hf; simpl.
  - unfold ret. simpl. intros [= <-]. constructor.
  - unfold bind. destruct (f x st) as [[y|e] st1] eqn:Hx; [|discriminate].
    destruct (comprehension f xs st1) as [[ys'|e] st2] eqn:Hxs; [|discriminate].
    unfold ret. simpl. intros [= <-]. constructor.
    + apply (Hf x st y); [left; reflexivity | rewrite Hx; reflexivity].
    + apply (IH st1 ys'); [|rewrite Hxs; reflexivity].
      intros x' s y' Hin. apply Hf. right. exact Hin.
Qed.

Lemma comprehension_Forall2 {A B : Type} (f : A -> M B) (R : A -> B -> Prop)
  (xs : list A) :
  (forall x, In x xs -> exists y, R x y /\ forall st, fst (f x st) = Ret y) ->
  exists ys, Forall2 R xs ys /\ forall st, fst (comprehension f xs st) = Ret ys.
Proof.
  induction xs as [|x xs IH]; intros Hf.
  - exists []. split; [constructor | reflexivity].
  - destruct (Hf x (or_introl eq_refl)) as (y & Hy & Hx).
    destruct IH as (ys & Hys & Hxs); [intros; apply Hf; right; assumption|].
    exists (y :: ys). split; [constructor; assumption|].
    intros st. simpl. unfold bind.
    specialize (Hx st). destruct (f x st) as [r st1]. simpl in Hx. subst r.
    specialize (Hxs st1). destruct (comprehension f xs st1) as [r st2].
    simpl in Hxs. subst r. reflexivity.
Qed.

Lemma comprehension_values {A B : Type} (f : A -> M B) (xs : list A)
  (st : state) (ys : list B) :
  fst (comprehension f xs st) = Ret ys ->
  Forall2 (fun x y => exists s, fst (f x s) = Ret y) xs ys.
Proof.
  revert st ys. induction xs as [|x xs IH]; intros st ys; simpl.
  - unfold ret. simpl. intros [= <-]. constructor.
  - unfold bind. destruct (f x st) as [[y|e] st1] eqn:Hx; [|discriminate].
    destruct (comprehension f xs st1) as [[ys'|e] st2] eqn:Hxs; [|discriminate].
    unfold ret. simpl. intros [= <-]. constructor.
    + exists st. rewrite Hx. reflexivity.
    + apply (IH st1). rewrite Hxs. reflexivity.
Qed.

(** ** What a detection gives back *)

Lemma status_consistentb_spec (r : ToolResult) :
  status_consistentb r = true <-> status_consistent r.
Proof.
  unfold status_consistentb, status_consistent.
  destruct r as [n p v s]; simpl.
  destruct (String.eqb_spec s "not_found") as [Hn | Hn];
    destruct (String.eqb_spec s "available") as [Ha | Ha];
    destruct (String.eqb_spec s "error") as [He | He];
    try congruence;
    destruct p, v; simpl; split;
    try (intros H; repeat split; intros; congruence);
    intros (H1 & H2 & H3);
    try reflexivity;
    try (destruct (H1 Hn); congruence);
    try (destruct (H2 Ha); congruence);
    try (destruct (H3 He); congruence).
Qed.

(** The results of the [try] statement: the path is the resolved one, and
    the status is that of the outcome of the invocation. *)
Lemma probe_version_result (env : Env) (spec : ToolSpec) (path : string)
  (st : state) (r : ToolResult) :
  fst (probe_version env spec path st) = Ret r ->
  ToolResult.name r = ToolSpec.name spec
  /\ ToolResult.path r = Some path
  /\ (ToolResult.status r = "available" /\ ToolResult.version r <> None
      \/ ToolResult.status r = "error" /\ ToolResult.version r = None).
Proof.
  rewrite probe_version_eq. cbn [fst].
  destruct (subprocess_run env _ _) as [proc|le].
  - destruct (returncode proc =? 0)%Z; intros [= <-]; simpl.
    + repeat split; auto. left. split; [reflexivity | discriminate].
    + auto.
  - destruct (caught (LibError le)); [|discriminate].
    intros [= <-]; simpl; auto.
Qed.

(** The results of [_detect_one]. *)
Lemma detect_one_result (env : Env) (spec : ToolSpec) (st : state)
  (r : ToolResult) :
  fst (_detect_one env spec st) = Ret r ->
  ToolResult.name r = ToolSpec.name spec /\ status_consistent r.
Proof.
  rewrite detect_one_eq.
  destruct (resolve env spec st) as [[[path|]|e] st'].
  - intros H. apply probe_version_result in H.
    destruct H as (Hn & Hp & [[Hs Hv] | [Hs Hv]]); split; auto;
      unfold status_consistent; rewrite Hs, Hp;
      repeat split; intros; congruence.
  - simpl. intros [= <-]. split; [reflexivity|].
    unfold status_consistent. simpl. repeat split; intros; congruence.
  - discriminate.
Qed.

Lemma detect_inv (env : Env) (name : string) (st : state) (r : ToolResult) :
  fst (detect env name st) = Ret r ->
  exists spec,
    PyDict.getitem name (_specs st) = Some spec
    /\ fst (_detect_one env spec st) = Ret r.
Proof.
  destruct (PyDict.getitem name (_specs st)) as [spec|] eqn:E.
  - rewrite (detect_registered env name spec st E). eauto.
  - rewrite (detect_unregistered env name st E). discriminate.
Qed.


(** The loop raises only what a check raises that it reached. *)
Lemma probe_fallbacks_raises (env : Env) (candidates : list string)
  (st : state) (e : exn) :
  fst (probe_fallbacks env candidates st) = Raise e ->
  exists before c after le,
    candidates = before ++ c :: after
    /\ (forall c', In c' before -> Path_is_file env c' = Ret false)
    /\ Path_is_file env c = Raise le
    /\ e = LibError le.
Proof.
  revert st. induction candidates as [|c0 rest IH]; intros st H;
    [discriminate|].
  simpl in H. unfold bind, is_file, lib_call in H.
  destruct (Path_is_file env c0) as [[|]|le] eqn:E; cbn [lift] in H.
  - discriminate H.
  - destruct (IH _ H) as (before & c & after & le & -> & Hb & Hc & ->).
    exists (c0 :: before), c, after, le. repeat split; auto.
    intros c' [<- | Hin]; auto.
  - injection H as <-. exists [], c0, rest, le. repeat split; auto.
    intros c' [].
Qed.

(** A result that [_detect_one] returns in one state, it returns in all. *)
Lemma detects_of_run (env : Env) (spec : ToolSpec) (st : state)
  (r : ToolResult) :
  fst (_detect_one env spec st) = Ret r -> detects env spec r.
Proof.
  intros H st'. rewrite <- H. apply stateless_value, stateless_detect_one.
Qed.

(** [_detect_one] returns a result exactly when the calls it makes raise
    nothing but what it catches. *)
Lemma detect_one_returns (env : Env) (spec : ToolSpec) :
  failures_caught env spec <-> exists r, detects env spec r.
Proof.
  split.
  - intros (Hw & Hf & Hr).
    assert (Hone : exists r, fst (_detect_one env spec __init__) = Ret r).
    { rewrite detect_one_eq.
      destruct (resolve env spec __init__) as [[[path|]|e] st'] eqn:Eres.
      - rewrite probe_version_eq. cbn [fst].
        destruct (subprocess_run env _ _) as [proc|le] eqn:E.
        + destruct (returncode proc =? 0)%Z; eauto.
        + destruct (Hr path le) as [-> | ->];
            [reflexivity | exact E | simpl; eauto..].
      - simpl. eauto.
      - exfalso. rewrite resolve_eq in Eres.
        destruct (shutil_which env (ToolSpec.command spec)) as [[p|]|le]
          eqn:Ew.
        + discriminate Eres.
        + assert (H : fst (probe_fallbacks env (ToolSpec.fallback_paths spec)
                             (record [Call_which (ToolSpec.command spec)]
                                __init__)) = Raise e)
            by (rewrite Eres; reflexivity).
          apply probe_fallbacks_raises in H.
          destruct H as (before & c & after & le & Hp & Hb & Hc & _).
          exact (Hf eq_refl before c after le Hp Hb Hc).
        + exact (Hw le eq_refl). }
    destruct Hone as [r Hr0]. exists r. exact (detects_of_run _ _ _ _ Hr0).
  - intros [r Hr]. split; [|split].
    + intros le Hw. specialize (Hr __init__).
      rewrite detect_one_eq, resolve_eq, Hw in Hr. discriminate Hr.
    + intros Hw before c after le Hp Hb Hc. specialize (Hr __init__).
      rewrite detect_one_eq, resolve_eq, Hw, Hp in Hr.
      rewrite (probe_fallbacks_raise env before after c le _ Hb Hc) in Hr.
      discriminate Hr.
    + intros path le Hres Hrun. specialize (Hr __init__).
      rewrite detect_one_eq in Hr.
      destruct (resolve env spec __init__) as [res st']. simpl in Hres.
      subst res. rewrite probe_version_eq, Hrun in Hr. cbn [fst] in Hr.
      destruct le; [auto | auto | discriminate Hr].
Qed.

(** ** The version of an available tool *)

(** C1, as amended. When the version invocation of the resolved executable
    of a registered specification exits with status zero, [detect] gives a
    result with status [available], the resolved path, and as version the
    captured output stripped of its surrounding whitespace as a whole and
    then cut at its first line feed. That version has no line feed in it; it
    is empty exactly when the output is whitespace only; and it is [x] when
    the output is [x], a line feed and anything after, for a non-empty [x]
    that has no line feed and no whitespace at either end. *)
Theorem detect_available_version (env : Env) (st : state) (name : string)
  (spec : ToolSpec) (path : string) (proc : CompletedProcess) :
  PyDict.getitem name (_specs st) = Some spec ->
  fst (resolve env spec st) = Ret (Some path) ->
  subprocess_run env [path; ToolSpec.version_flag spec]
    (ToolSpec.version_timeout spec) = Ret proc ->
  returncode proc = 0%Z ->
  exists v,
    fst (detect env name st)
    = Ret (ToolResult.mk (ToolSpec.name spec) (Some path) (Some v) "available")
    /\ PyStr.has_LF v = false
    /\ (PyStr.strip (stdout proc) = v
        \/ exists rest,
             PyStr.strip (stdout proc) = (v ++ String PyStr.LF rest)%string)
    /\ (v = EmptyString <-> PyStr.all_space (stdout proc) = true)
    /\ (forall x rest,
          stdout proc = (x ++ String PyStr.LF rest)%string ->
          x <> EmptyString -> PyStr.has_LF x = false -> PyStr.strip x = x ->
          v = x).
Proof.
  intros Hreg Hres Hrun Hrc.
  destruct (PyStrFacts.split_head (PyStr.strip (stdout proc)))
    as (v & pieces & Hsplit & HvLF & Hshape).
  exists v. split; [|split; [exact HvLF | split; [exact Hshape | split]]].
  - rewrite (detect_registered env name spec st Hreg), detect_one_eq.
    destruct (resolve env spec st) as [r st']. simpl in Hres. subst r.
    rewrite probe_version_eq, Hrun, Hrc, Hsplit. reflexivity.
  - rewrite <- PyStrFacts.strip_all_space. split; intros H.
    + subst v. destruct Hshape as [E | [rest E]]; [exact E|].
      pose proof (PyStrFacts.strip_head (stdout proc)) as Hh.
      rewrite E in Hh. simpl in Hh. discriminate Hh.
    + rewrite H in Hsplit. simpl in Hsplit. congruence.
  - intros x rest Hout Hne HxLF Hx.
    assert (Hhd : exists pieces', PyStr.split PyStr.LF
                                    (PyStr.strip (stdout proc)) = x :: pieces').
    { rewrite Hout.
      destruct (PyStrFacts.strip_first_line x rest Hne Hx) as [-> | [rest' ->]].
      - exists []. apply PyStrFacts.split_no_LF, HxLF.
      - apply PyStrFacts.split_prefix, HxLF. }
    destruct Hhd as [pieces' Hhd]. congruence.
Qed.

(** ** The tool that is not found *)


(** ** The tool that misbehaves *)

(** C5. When the executable of a registered specification is resolved and
    the version invocation exits with a non-zero status, or runs into the
    timeout, or cannot be launched ([OSError]), [detect] gives the result
    [error] with the resolved path and no version. *)
Theorem detect_error (env : Env) (st : state) (name : string)
  (spec : ToolSpec) (path : string) :
  PyDict.getitem name (_specs st) = Some spec ->
  fst (resolve env spec st) = Ret (Some path) ->
  (exists proc,
     subprocess_run env [path; ToolSpec.version_flag spec]
       (ToolSpec.version_timeout spec) = Ret proc
     /\ returncode proc <> 0%Z)
  \/ subprocess_run env [path; ToolSpec.version_flag spec]
       (ToolSpec.version_timeout spec) = Raise TimeoutExpired
  \/ subprocess_run env [path; ToolSpec.version_flag spec]
       (ToolSpec.version_timeout spec) = Raise OSError ->
  fst (detect env name st)
  = Ret (ToolResult.mk (ToolSpec.name spec) (Some path) None "error").
Proof.
  intros Hreg Hres Hrun.
  rewrite (detect_registered env name spec st Hreg), detect_one_eq.
  destruct (resolve env spec st) as [r st']. simpl in Hres. subst r.
  rewrite probe_version_eq.
  destruct Hrun as [(proc & -> & Hrc) | [-> | ->]]; [|reflexivity..].
  apply Z.eqb_neq in Hrc. rewrite Hrc. reflexivity.
Qed.

(** ** The order of the fallback paths *)

(** C6, as amended. When the search-path lookup finds nothing, the fallback
    paths are checked in list order. A path whose check returns [True],
    every check before it having returned [False], becomes the path of the
    result, and the paths after it are not checked; so of two fallback paths
    that are both files the first is taken. A path whose check raises, every
    check before it having returned [False], ends the detection with that
    exception: no path is resolved, whatever files come after it. *)
Theorem fallback_first_file_wins (env : Env) (st : state) (spec : ToolSpec)
  (before after : list string) (c : string) :
  shutil_which env (ToolSpec.command spec) = Ret None ->
  ToolSpec.fallback_paths spec = before ++ c :: after ->
  (forall c', In c' before -> Path_is_file env c' = Ret false) ->
  (Path_is_file env c = Ret true ->
   resolve env spec st
   = (Ret (Some c),
      record (Call_which (ToolSpec.command spec)
              :: map Call_is_file (before ++ [c])) st)
   /\ forall r, fst (_detect_one env spec st) = Ret r ->
                ToolResult.path r = Some c)
  /\ (forall le,
        Path_is_file env c = Raise le ->
        resolve env spec st
        = (Raise (LibError le),
           record (Call_which (ToolSpec.command spec)
                   :: map Call_is_file (before ++ [c])) st)
        /\ fst (_detect_one env spec st) = Raise (LibError le)).
Proof.
  intros Hwhich Hpaths Hbefore. split.
  - intros Hc.
    assert (Hres : resolve env spec st
                   = (Ret (Some c),
                      record (Call_which (ToolSpec.command spec)
                              :: map Call_is_file (before ++ [c])) st)).
    { rewrite resolve_eq, Hwhich, Hpaths.
      rewrite (probe_fallbacks_hit env before after c _ Hbefore Hc).
      rewrite record_record. reflexivity. }
    split; [exact Hres|].
    intros r. rewrite detect_one_eq, Hres. intros H.
    apply probe_version_result in H. tauto.
  - intros le Hc.
    assert (Hres : resolve env spec st
                   = (Raise (LibError le),
                      record (Call_which (ToolSpec.command spec)
                              :: map Call_is_file (before ++ [c])) st)).
    { rewrite resolve_eq, Hwhich, Hpaths.
      rewrite (probe_fallbacks_raise env before after c le _ Hbefore Hc).
      rewrite record_record. reflexivity. }
    split; [exact Hres|]. rewrite detect_one_eq, Hres. reflexivity.
Qed.

(** The case of two fallback paths that are both files: the first one is
    the resolved path and the second one is not checked. *)
Corollary fallback_pair_first_wins (env : Env) (st : state) (spec : ToolSpec)
  (A B : string) :
  shutil_which env (ToolSpec.command spec) = Ret None ->
  ToolSpec.fallback_paths spec = [A; B] ->
  Path_is_file env A = Ret true ->
  Path_is_file env B = Ret true ->
  resolve env spec st
  = (Ret (Some A),
     record [Call_which (ToolSpec.command spec); Call_is_file A] st).
Proof.
  intros Hwhich Hpaths HA _.
  rewrite resolve_eq, Hwhich, Hpaths.
  rewrite (probe_fallbacks_hit env [] [B] A _
             (fun _ (F : False) => match F with end) HA).
  rewrite record_record. reflexivity.
Qed.

(** ** The invariant of the results *)

(** C3. In every result that [detect] or [detect_all] gives, the status
    agrees with the presence of path and version: [not_found] comes with
    neither, [available] with both, [error] with a path and no version. *)
Theorem results_status_consistent (env : Env) (st : state) :
  (forall name r, fst (detect env name st) = Ret r -> status_consistent r)
  /\ (forall rs, fst (detect_all env st) = Ret rs ->
                 Forall status_consistent rs).
Proof.
  split.
  - intros name r H. apply detect_inv in H. destruct H as (spec & _ & H).
    apply detect_one_result in H. tauto.
  - intros rs H. unfold detect_all in H.
    apply (comprehension_Forall (_detect_one env) status_consistent
             (PyDict.values (_specs st)) st rs); [|exact H].
    intros spec s r _ Hr. apply detect_one_result in Hr. tauto.
Qed.

(** ** The exceptions of [detect] *)


(** ** The results of [detect_all] *)

Lemma detect_all_values (env : Env) (st : state) (rs : list ToolResult) :
  fst (detect_all env st) = Ret rs ->
  Forall2 (detects env) (PyDict.values (_specs st)) rs.
Proof.
  intros H. unfold detect_all in H. apply comprehension_values in H.
  induction H as [|spec r specs rs' [s Hr] _ IH]; constructor;
    [exact (detects_of_run env spec s r Hr) | exact IH].
Qed.

Lemma detects_names (env : Env) (specs : list ToolSpec)
  (rs : list ToolResult) :
  Forall2 (detects env) specs rs ->
  map ToolResult.name rs = map ToolSpec.name specs.
Proof.
  induction 1 as [|spec r specs rs Hr _ IH]; [reflexivity|].
  simpl. rewrite IH.
  rewrite (proj1 (detect_one_result env spec __init__ r (Hr __init__))).
  reflexivity.
Qed.

(** C7, as amended. [detect_all] returns exactly when, for every
    specification of the registry, the calls that its detection makes raise
    nothing but what [_detect_one] catches: the lookup and the file checks
    it reaches do not raise, and the invocation raises at most a timeout or
    an [OSError]. Whenever it returns, it returns one result per
    specification of the registry, in the order of the registry, each the
    result of detecting that specification, whatever the outcomes; for
    specifications registered under distinct names that order is the order
    of registration. *)
Theorem detect_all_in_registration_order (env : Env) (st : state) :
  ((forall spec, In spec (PyDict.values (_specs st)) ->
                 failures_caught env spec)
   <-> exists rs, fst (detect_all env st) = Ret rs)
  /\ forall rs,
       fst (detect_all env st) = Ret rs ->
       Forall2 (detects env) (PyDict.values (_specs st)) rs
       /\ length rs = length (_specs st)
       /\ map ToolResult.name rs
          = map ToolSpec.name (PyDict.values (_specs st))
       /\ forall specs,
            NoDup (map ToolSpec.name specs) ->
            _specs st = _specs (registry_of specs) ->
            Forall2 (detects env) specs rs.
Proof.
  split.
  - split.
    + intros Hcaught.
      destruct (comprehension_Forall2 (_detect_one env) (detects env)
                  (PyDict.values (_specs st))) as (rs & _ & Hval).
      { intros spec Hin.
        destruct (proj1 (detect_one_returns env spec) (Hcaught spec Hin))
          as [r Hr].
        exists r. split; exact Hr. }
      exists rs. apply Hval.
    + intros [rs H] spec Hin. apply detect_all_values in H.
      apply detect_one_returns.
      clear - H Hin. induction H as [|spec' r specs rs' Hr _ IH];
        [contradiction|].
      destruct Hin as [<- | Hin]; [eauto | exact (IH Hin)].
  - intros rs H. apply detect_all_values in H.
    split; [exact H|]. split; [|split].
    + apply Forall2_length in H. unfold PyDict.values in H.
      rewrite length_map in H. congruence.
    + exact (detects_names env _ _ H).
    + intros specs Hnd Hst. rewrite Hst in H. unfold registry_of in H.
      rewrite (register_each_distinct specs Hnd) in H.
      unfold PyDict.values in H. rewrite map_map, map_id in H. exact H.
Qed.

(** ** Registration *)

(** C8. [register] never raises, whatever the name of the specification
    (the empty string included); afterwards the name maps to that
    specification, so that [detect] of the name detects it, and the other
    names map to what they mapped to. After any sequence of registrations a
    name maps to the specification registered under it last. *)
Theorem register_last_write_wins (env : Env) (spec : ToolSpec) (st : state) :
  fst (register spec st) = Ret tt
  /\ PyDict.getitem (ToolSpec.name spec) (_specs (snd (register spec st)))
     = Some spec
  /\ detect env (ToolSpec.name spec) (snd (register spec st))
     = _detect_one env spec (snd (register spec st))
  /\ (forall name,
        name <> ToolSpec.name spec ->
        PyDict.getitem name (_specs (snd (register spec st)))
        = PyDict.getitem name (_specs st))
  /\ (forall specs name,
        PyDict.getitem name (_specs (snd (register_each specs st)))
        = match find (fun s => String.eqb (ToolSpec.name s) name) (rev specs)
          with
          | Some s => Some s
          | None => PyDict.getitem name (_specs st)
          end).
Proof.
  split; [reflexivity|].
  assert (Hget : PyDict.getitem (ToolSpec.name spec)
                   (_specs (snd (register spec st))) = Some spec)
    by apply PyDictFacts.getitem_setitem_same.
  split; [exact Hget|]. split; [|split].
  - apply detect_registered, Hget.
  - intros name Hne. simpl. apply PyDictFacts.getitem_setitem_other, Hne.
  - intros specs name. apply register_each_getitem.
Qed.

(** C9. [detect] and [detect_all] (and [_detect_one]) leave the dict of the
    registry as it was, with every specification in it; of the methods only
    [register] changes it. *)
Theorem detection_leaves_registry (env : Env) (st : state) :
  (forall name, _specs (snd (detect env name st)) = _specs st)
  /\ _specs (snd (detect_all env st)) = _specs st
  /\ (forall spec, _specs (snd (_detect_one env spec st)) = _specs st).
Proof.
  split; [|split].
  - intros name. unfold detect, bind, lookup.
    destruct (PyDict.getitem name (_specs st)) as [spec|]; [|reflexivity].
    apply stateless_specs, stateless_detect_one.
  - unfold detect_all.
    apply stateless_specs, stateless_comprehension, stateless_detect_one.
  - intros spec. apply stateless_specs, stateless_detect_one.
Qed.

(** C10. Registering a specification under a name that is in the registry
    changes the value of that entry where it stands: the entries before and
    after it, and so the order of the names, stay as they are. The results
    of [detect_all] keep that place: what it returned before, with the
    result of the old specification at the place of the entry, it returns
    afterwards with the result of the new specification at the same place,
    between the results of the same other specifications. After
    [register(S1)], [register(S2)], [register(S1')], with [S1'] of the name
    of [S1] and [S2] of another name, [detect_all] returns two results, the
    one of [S1'] first and the one of [S2] second. *)
Theorem reregister_keeps_position (env : Env) :
  (forall spec st,
     In (ToolSpec.name spec) (PyDict.keys (_specs st)) ->
     exists d1 old d2,
       _specs st = d1 ++ (ToolSpec.name spec, old) :: d2
       /\ ~ In (ToolSpec.name spec) (PyDict.keys d1)
       /\ _specs (snd (register spec st))
          = d1 ++ (ToolSpec.name spec, spec) :: d2
       /\ PyDict.keys (_specs (snd (register spec st)))
          = PyDict.keys (_specs st)
       /\ (forall rs,
             fst (detect_all env st) = Ret rs ->
             exists before r after,
               rs = before ++ r :: after
               /\ length before = length d1
               /\ Forall2 (detects env) (PyDict.values d1) before
               /\ detects env old r
               /\ Forall2 (detects env) (PyDict.values d2) after)
       /\ (forall rs,
             fst (detect_all env (snd (register spec st))) = Ret rs ->
             exists before r after,
               rs = before ++ r :: after
               /\ length before = length d1
               /\ Forall2 (detects env) (PyDict.values d1) before
               /\ detects env spec r
               /\ Forall2 (detects env) (PyDict.values d2) after))
  /\ (forall S1 S2 S1',
        ToolSpec.name S1' = ToolSpec.name S1 ->
        ToolSpec.name S2 <> ToolSpec.name S1 ->
        PyDict.values (_specs (registry_of [S1; S2; S1'])) = [S1'; S2]
        /\ forall rs,
             fst (detect_all env (registry_of [S1; S2; S1'])) = Ret rs ->
             exists r1 r2,
               rs = [r1; r2]
               /\ detects env S1' r1
               /\ detects env S2 r2
               /\ ToolResult.name r1 = ToolSpec.name S1'
               /\ ToolResult.name r2 = ToolSpec.name S2).
Proof.
  assert (Hsplit : forall (d1 d2 : PyDict.dict ToolSpec) k v s rs,
             _specs s = d1 ++ (k, v) :: d2 ->
             fst (detect_all env s) = Ret rs ->
             exists before r after,
               rs = before ++ r :: after
               /\ length before = length d1
               /\ Forall2 (detects env) (PyDict.values d1) before
               /\ detects env v r
               /\ Forall2 (detects env) (PyDict.values d2) after).
  { intros d1 d2 k v s rs Hs H. apply detect_all_values in H.
    rewrite Hs in H. unfold PyDict.values in H. rewrite map_app in H.
    apply Forall2_app_inv_l in H.
    destruct H as (before & rest & Hb & Hrest & ->).
    inversion Hrest as [|? r ? after Hr Ha]; subst.
    exists before, r, after. split; [reflexivity|]. split; [|auto].
    apply Forall2_length in Hb. rewrite length_map in Hb. congruence. }
  split.
  - intros spec st Hin.
    destruct (PyDictFacts.setitem_present (ToolSpec.name spec) spec (_specs st)
                Hin) as (d1 & old & d2 & Hst & Hd1 & Hset).
    exists d1, old, d2. split; [exact Hst|]. split; [exact Hd1|].
    split; [exact Hset|]. split; [|split].
    + simpl. apply PyDictFacts.keys_setitem_present, Hin.
    + intros rs. exact (Hsplit d1 d2 (ToolSpec.name spec) old st rs Hst).
    + intros rs.
      exact (Hsplit d1 d2 (ToolSpec.name spec) spec (snd (register spec st))
               rs Hset).
  - intros S1 S2 S1' Hsame Hdiff.
    assert (Hspecs : _specs (registry_of [S1; S2; S1'])
                     = [(ToolSpec.name S1, S1'); (ToolSpec.name S2, S2)]).
    { unfold registry_of. simpl.
      apply String.eqb_neq in Hdiff. rewrite String.eqb_sym in Hdiff.
      rewrite Hdiff. simpl. rewrite Hsame, String.eqb_refl. reflexivity. }
    split; [rewrite Hspecs; reflexivity|].
    intros rs H. apply detect_all_values in H. rewrite Hspecs in H.
    inversion H as [|? r1 ? rs1 Hr1 H1]; subst.
    inversion H1 as [|? r2 ? rs2 Hr2 H2]; subst.
    inversion H2; subst.
    exists r1, r2. split; [reflexivity|]. split; [exact Hr1|].
    split; [exact Hr2|]. split.
    + exact (proj1 (detect_one_result env S1' __init__ r1 (Hr1 __init__))).
    + exact (proj1 (detect_one_result env S2 __init__ r2 (Hr2 __init__))).
Qed.

(** ** The module's tests, run on the embedding *)

Example test_detect_available_via_which :
  fst (detect mock_env "ExifTool" (registry_of [exiftool_spec]))
  = Ret (ToolResult.mk "ExifTool" (Some "/usr/bin/exiftool") (Some "12.50")
           "available").
Proof. reflexivity. Qed.

Example test_detect_not_found :
  fst (detect mock_env "Missing" (registry_of [missing_spec]))
  = Ret (ToolResult.mk "Missing" None None "not_found").
Proof. reflexivity. Qed.

Example test_detect_fallback_path :
  fst (detect mock_env "Fallback" (registry_of [fallback_spec]))
  = Ret (ToolResult.mk "Fallback" (Some "/opt/exiftool/exiftool")
           (Some "12.40") "available").
Proof. reflexivity. Qed.

Example test_detect_version_error :
  fst (detect mock_env "Bad" (registry_of [bad_spec]))
  = Ret (ToolResult.mk "Bad" (Some "/usr/bin/bad") None "error").
Proof. reflexivity. Qed.

Example test_detect_timeout :
  fst (detect mock_env "Slow" (registry_of [slow_spec]))
  = Ret (ToolResult.mk "Slow" (Some "/usr/bin/slow") None "error").
Proof. reflexivity. Qed.

Example test_detect_all :
  fst (detect_all mock_env (registry_of [missing_spec; bad_spec]))
  = Ret [ToolResult.mk "Missing" None None "not_found";
         ToolResult.mk "Bad" (Some "/usr/bin/bad") None "error"].
Proof. reflexivity. Qed.

Example test_detect_unknown_raises :
  fst (detect mock_env "nope" __init__) = Raise (KeyError "nope").
Proof. reflexivity. Qed.

Example test_multiline_version_takes_first_line :
  fst (detect mock_env "Multi" (registry_of [multi_spec]))
  = Ret (ToolResult.mk "Multi" (Some "/usr/bin/multi") (Some "1.2.3")
           "available").
Proof. reflexivity. Qed.

(** The calls that the detection of [fallback_spec] makes, in order. *)
Example fallback_spec_calls :
  calls (snd (detect mock_env "Fallback" (registry_of [fallback_spec])))
  = [Call_which "exiftool-local";
     Call_is_file "/nowhere/exiftool";
     Call_is_file "/opt/exiftool/exiftool";
     Call_run ["/opt/exiftool/exiftool"; "-ver"] 5%float].
Proof. reflexivity. Qed.

(** ** Where the code departs from the wording *)

(** C1, the counterexample. For an output that starts with a line feed the
    first line is blank and the wording gives the empty version; the code
    gives the first line of the stripped output. For an output whose first
    line ends in a space the wording gives that line trimmed; the code keeps
    the space. *)
Lemma version_is_not_first_line_trimmed :
  subprocess_run mock_env ["/usr/bin/blank"; "--version"] 5%float
  = Ret (mkCompletedProcess 0 (nl ++ "1.2" ++ nl) "")
  /\ first_line_trimmed (nl ++ "1.2" ++ nl) = ""%string
  /\ fst (detect mock_env "Blank" (registry_of [blank_spec]))
     = Ret (ToolResult.mk "Blank" (Some "/usr/bin/blank") (Some "1.2")
              "available")
  /\ subprocess_run mock_env ["/usr/bin/padded"; "--version"] 5%float
     = Ret (mkCompletedProcess 0 ("1.2 " ++ nl ++ "build 7" ++ nl) "")
  /\ first_line_trimmed ("1.2 " ++ nl ++ "build 7" ++ nl) = "1.2"%string
  /\ fst (detect mock_env "Padded" (registry_of [padded_spec]))
     = Ret (ToolResult.mk "Padded" (Some "/usr/bin/padded") (Some "1.2 ")
              "available").
Proof. repeat split; reflexivity. Qed.



(** C6, the counterexample. The search-path lookup finds nothing; of the
    two fallback paths the second is the first that is a file, but the check
    of the first raises: the second is never checked and no path is
    resolved. *)
Lemma fallback_check_raises_before_first_file :
  shutil_which guarded_env "exiftool-local" = Ret None
  /\ ToolSpec.fallback_paths guarded_fallback_spec
     = ["/root/private/tool"%string; "/opt/exiftool/exiftool"%string]
  /\ Path_is_file guarded_env "/root/private/tool" = Raise OSError
  /\ Path_is_file guarded_env "/opt/exiftool/exiftool" = Ret true
  /\ resolve guarded_env guarded_fallback_spec __init__
     = (Raise (LibError OSError),
        record [Call_which "exiftool-local";
                Call_is_file "/root/private/tool"] __init__)
  /\ fst (detect guarded_env "GuardedFallback"
            (registry_of [guarded_fallback_spec]))
     = Raise (LibError OSError).
Proof. repeat split; reflexivity. Qed.

(** C7, the counterexample. With three specifications registered,
    [detect_all] detects the first and raises on the second: it gives no
    list of results. *)
Lemma detect_all_lets_ValueError_escape :
  detect_all strict_env (registry_of [multi_spec; nul_spec; bad_spec])
  = (Raise (LibError ValueError),
     record [Call_which "multi";
             Call_run ["/usr/bin/multi"; "--version"] 5%float;
             Call_which "exiftool";
             Call_run ["/usr/bin/exiftool"; NUL] 5%float]
       (registry_of [multi_spec; nul_spec; bad_spec])).
Proof. reflexivity. Qed.

(** ** The statements at concrete inputs *)

Lemma detect_available_version_witness :
  PyDict.getitem "Multi" (_specs (registry_of [multi_spec])) = Some multi_spec
  /\ fst (resolve mock_env multi_spec (registry_of [multi_spec]))
     = Ret (Some "/usr/bin/multi")
  /\ subprocess_run mock_env ["/usr/bin/multi"; "--version"] 5%float
     = Ret (mkCompletedProcess 0 ("1.2.3" ++ nl ++ "Some extra info" ++ nl) "")
  /\ fst (detect mock_env "Multi" (registry_of [multi_spec]))
     = Ret (ToolResult.mk "Multi" (Some "/usr/bin/multi") (Some "1.2.3")
              "available").
Proof.
  split; [reflexivity|]. split; [reflexivity|]. split; [reflexivity|].
  destruct (detect_available_version mock_env (registry_of [multi_spec])
              "Multi" multi_spec "/usr/bin/multi"
              (mkCompletedProcess 0
                 ("1.2.3" ++ nl ++ "Some extra info" ++ nl) "")
              eq_refl eq_refl eq_refl eq_refl)
    as (v & Hd & _ & _ & _ & Hx).
  rewrite Hd.
  rewrite (Hx "1.2.3"%string ("Some extra info" ++ nl)%string eq_refl);
    [reflexivity | discriminate | reflexivity | reflexivity].
Defined.


Lemma results_status_consistent_witness :
  fst (detect_all mock_env (registry_of [exiftool_spec; missing_spec; bad_spec]))
  = Ret [ToolResult.mk "ExifTool" (Some "/usr/bin/exiftool") (Some "12.50")
           "available";
         ToolResult.mk "Missing" None None "not_found";
         ToolResult.mk "Bad" (Some "/usr/bin/bad") None "error"]
  /\ Forall status_consistent
       [ToolResult.mk "ExifTool" (Some "/usr/bin/exiftool") (Some "12.50")
          "available";
        ToolResult.mk "Missing" None None "not_found";
        ToolResult.mk "Bad" (Some "/usr/bin/bad") None "error"].
Proof.
  split; [reflexivity|].
  apply (proj2 (results_status_consistent mock_env
                  (registry_of [exiftool_spec; missing_spec; bad_spec]))).
  reflexivity.
Defined.


Lemma detect_error_witness :
  PyDict.getitem "Bad" (_specs (registry_of [bad_spec])) = Some bad_spec
  /\ fst (resolve mock_env bad_spec (registry_of [bad_spec]))
     = Ret (Some "/usr/bin/bad")
  /\ subprocess_run mock_env ["/usr/bin/bad"; "--version"] 5%float
     = Ret (mkCompletedProcess 1 "" "usage: bad")
  /\ fst (detect mock_env "Bad" (registry_of [bad_spec]))
     = Ret (ToolResult.mk "Bad" (Some "/usr/bin/bad") None "error").
Proof.
  split; [reflexivity|]. split; [reflexivity|]. split; [reflexivity|].
  apply (detect_error mock_env (registry_of [bad_spec]) "Bad" bad_spec
           "/usr/bin/bad"); [reflexivity | reflexivity |].
  left. exists (mkCompletedProcess 1 "" "usage: bad").
  split; [reflexivity | discriminate].
Defined.

Lemma fallback_first_file_wins_witness :
  shutil_which mock_env "exiftool-local" = Ret None
  /\ Path_is_file mock_env "/nowhere/exiftool" = Ret false
  /\ Path_is_file mock_env "/opt/exiftool/exiftool" = Ret true
  /\ Path_is_file mock_env "/usr/local/bin/exiftool" = Ret true
  /\ resolve mock_env fallback_spec __init__
     = (Ret (Some "/opt/exiftool/exiftool"),
        record [Call_which "exiftool-local";
                Call_is_file "/nowhere/exiftool";
                Call_is_file "/opt/exiftool/exiftool"] __init__).
Proof.
  split; [reflexivity|]. split; [reflexivity|]. split; [reflexivity|].
  split; [reflexivity|].
  assert (Hbefore : forall c',
             In c' ["/nowhere/exiftool"%string] ->
             Path_is_file mock_env c' = Ret false)
    by (intros c' [<- | []]; reflexivity).
  exact (proj1 (proj1 (fallback_first_file_wins mock_env __init__
                         fallback_spec ["/nowhere/exiftool"%string]
                         ["/usr/local/bin/exiftool"%string]
                         "/opt/exiftool/exiftool" eq_refl eq_refl Hbefore)
                  eq_refl)).
Defined.

Lemma detect_all_in_registration_order_witness :
  fst (detect_all strict_env
         (registry_of [exiftool_spec; missing_spec; slow_spec]))
  = Ret [ToolResult.mk "ExifTool" (Some "/usr/bin/exiftool") (Some "12.50")
           "available";
         ToolResult.mk "Missing" None None "not_found";
         ToolResult.mk "Slow" (Some "/usr/bin/slow") None "error"]
  /\ Forall2 (detects strict_env) [exiftool_spec; missing_spec; slow_spec]
       [ToolResult.mk "ExifTool" (Some "/usr/bin/exiftool") (Some "12.50")
          "available";
        ToolResult.mk "Missing" None None "not_found";
        ToolResult.mk "Slow" (Some "/usr/bin/slow") None "error"]
  /\ failures_caught strict_env slow_spec.
Proof.
  split; [reflexivity|].
  pose proof (detect_all_in_registration_order strict_env
                (registry_of [exiftool_spec; missing_spec; slow_spec]))
    as [Hiff Horder].
  split.
  - destruct (Horder _ eq_refl) as (_ & _ & _ & H).
    apply H; [|reflexivity].
    repeat constructor; simpl; intuition discriminate.
  - apply (proj2 Hiff); [eexists; reflexivity|].
    right. right. left. reflexivity.
Defined.

Lemma register_last_write_wins_witness :
  "Multi"%string <> "ExifTool"%string
  /\ PyDict.getitem "ExifTool"
       (_specs (snd (register exiftool_spec'
                       (registry_of [exiftool_spec; multi_spec]))))
     = Some exiftool_spec'
  /\ PyDict.getitem "Multi"
       (_specs (snd (register exiftool_spec'
                       (registry_of [exiftool_spec; multi_spec]))))
     = PyDict.getitem "Multi" (_specs (registry_of [exiftool_spec; multi_spec])).
Proof.
  split; [discriminate|].
  pose proof (register_last_write_wins mock_env exiftool_spec'
                (registry_of [exiftool_spec; multi_spec]))
    as (_ & Hget & _ & Hother & _).
  split; [exact Hget|]. apply Hother. discriminate.
Defined.

Lemma reregister_keeps_position_witness :
  ToolSpec.name exiftool_spec' = ToolSpec.name exiftool_spec
  /\ ToolSpec.name multi_spec <> ToolSpec.name exiftool_spec
  /\ fst (detect_all mock_env
            (registry_of [exiftool_spec; multi_spec; exiftool_spec']))
     = Ret [ToolResult.mk "ExifTool" (Some "/opt/exiftool/exiftool")
              (Some "12.40") "available";
            ToolResult.mk "Multi" (Some "/usr/bin/multi") (Some "1.2.3")
              "available"]
  /\ exists r1 r2,
       [ToolResult.mk "ExifTool" (Some "/opt/exiftool/exiftool")
          (Some "12.40") "available";
        ToolResult.mk "Multi" (Some "/usr/bin/multi") (Some "1.2.3")
          "available"]
       = [r1; r2]
       /\ detects mock_env exiftool_spec' r1
       /\ detects mock_env multi_spec r2.
Proof.
  split; [reflexivity|]. split; [discriminate|]. split; [reflexivity|].
  assert (Hdiff : ToolSpec.name multi_spec <> ToolSpec.name exiftool_spec)
    by discriminate.
  destruct (proj2 (proj2 (reregister_keeps_position mock_env)
                     exiftool_spec multi_spec exiftool_spec' eq_refl Hdiff)
              _ eq_refl)
    as (r1 & r2 & Heq & H1 & H2 & _).
  exists r1, r2. auto.
Defined.

(** * More of the package

    The rest concerns what the statements above leave out: further
    properties of the registry, and the modules [_compat], [info] and the
    texts of [qt.about_dialog]. *)

(** ** The registry: its keys, its calls, its lookups *)

Lemma keys_setitem_new {V : Type} (k : string) (v : V) (d : PyDict.dict V) :
  ~ In k (PyDict.keys d) ->
  PyDict.keys (PyDict.setitem k v d) = PyDict.keys d ++ [k].
Proof.
  intros H. rewrite (PyDictFacts.setitem_new k v d H).
  unfold PyDict.keys. rewrite map_app. reflexivity.
Qed.

Lemma setitem_NoDup {V : Type} (k : string) (v : V) (d : PyDict.dict V) :
  NoDup (PyDict.keys d) -> NoDup (PyDict.keys (PyDict.setitem k v d)).
Proof.
  intros Hnd. destruct (in_dec string_dec k (PyDict.keys d)) as [Hin | Hout].
  - rewrite (PyDictFacts.keys_setitem_present k v d Hin). exact Hnd.
  - rewrite (keys_setitem_new k v d Hout).
    apply NoDup_app; [exact Hnd | repeat constructor; intros [] |].
    intros x Hx [<- | []]. exact (Hout Hx).
Qed.

Lemma registry_of_NoDup (specs : list ToolSpec) :
  NoDup (PyDict.keys (_specs (registry_of specs))).
Proof.
  unfold registry_of.
  induction specs as [|s rest IH] using rev_ind; [constructor|].
  rewrite register_each_app. simpl. apply setitem_NoDup, IH.
Qed.

Lemma registry_of_getitem_name (specs : list ToolSpec) (name : string)
  (spec : ToolSpec) :
  PyDict.getitem name (_specs (registry_of specs)) = Some spec ->
  ToolSpec.name spec = name /\ In spec specs.
Proof.
  unfold registry_of. rewrite register_each_getitem. simpl.
  destruct (find _ (rev specs)) as [s|] eqn:E; [|discriminate].
  intros [= ->]. apply find_some in E. destruct E as [Hin Heq].
  apply String.eqb_eq in Heq. split; [exact Heq|].
  apply in_rev. exact Hin.
Qed.

(** In a dict with distinct keys every entry is found under its key. *)
Lemma getitem_entry {V : Type} (d : PyDict.dict V) :
  NoDup (PyDict.keys d) ->
  Forall (fun kv => PyDict.getitem (fst kv) d = Some (snd kv)) d.
Proof.
  induction d as [|[k v] d IH]; intros Hnd; constructor.
  - simpl. rewrite String.eqb_refl. reflexivity.
  - simpl in Hnd. inversion Hnd as [|? ? Hk Hd]; subst.
    specialize (IH Hd). rewrite Forall_forall in IH |- *.
    intros [k' v'] Hin. simpl.
    destruct (String.eqb_spec k k') as [-> | Hne].
    + exfalso. apply Hk. apply (in_map fst) in Hin. exact Hin.
    + exact (IH _ Hin).
Qed.

Lemma setitem_getitem {V : Type} (k : string) (v : V) (d : PyDict.dict V) :
  PyDict.getitem k d = Some v -> PyDict.setitem k v d = d.
Proof.
  induction d as [|[k' v'] d IH]; simpl; [discriminate|].
  destruct (String.eqb_spec k' k) as [-> | Hne].
  - intros [= ->]. reflexivity.
  - intros H. rewrite (IH H). reflexivity.
Qed.

(** X1. Whatever was registered and in whatever order, the names of the
    registry are distinct, every name maps to a specification of that name
    that was registered, and a result of [detect(name)] carries [name]. *)
Theorem registry_names (env : Env) (specs : list ToolSpec) :
  NoDup (PyDict.keys (_specs (registry_of specs)))
  /\ (forall name spec,
        PyDict.getitem name (_specs (registry_of specs)) = Some spec ->
        ToolSpec.name spec = name /\ In spec specs)
  /\ (forall name r,
        fst (detect env name (registry_of specs)) = Ret r ->
        ToolResult.name r = name).
Proof.
  split; [apply registry_of_NoDup|]. split.
  - apply registry_of_getitem_name.
  - intros name r H. apply detect_inv in H. destruct H as (spec & Hget & H).
    apply detect_one_result in H. destruct H as [H _]. rewrite H.
    exact (proj1 (registry_of_getitem_name specs name spec Hget)).
Qed.

Lemma registry_names_witness :
  fst (detect mock_env "Multi" (registry_of [multi_spec; bad_spec; multi_spec]))
  = Ret (ToolResult.mk "Multi" (Some "/usr/bin/multi") (Some "1.2.3")
           "available")
  /\ ToolResult.name
       (ToolResult.mk "Multi" (Some "/usr/bin/multi") (Some "1.2.3")
          "available")
     = "Multi"%string.
Proof.
  split; [reflexivity|].
  apply (proj2 (proj2 (registry_names mock_env
                         [multi_spec; bad_spec; multi_spec]))).
  reflexivity.
Defined.

(** X2. The calls of one detection: one search-path lookup; then file checks
    of a prefix of the fallback paths, and of none of them when the lookup
    gave a path; then at most one invocation, of two arguments, the
    resolved path and the version flag, the path being the answer of the
    lookup or a fallback path that the file check accepted. *)
Theorem detection_calls (env : Env) (spec : ToolSpec) (st : state) :
  exists checked ran,
    snd (_detect_one env spec st)
    = record (Call_which (ToolSpec.command spec)
              :: map Call_is_file checked ++ ran) st
    /\ (exists rest, ToolSpec.fallback_paths spec = checked ++ rest)
    /\ (shutil_which env (ToolSpec.command spec) <> Ret None -> checked = [])
    /\ (ran = []
        \/ exists path,
             ran = [Call_run [path; ToolSpec.version_flag spec]
                      (ToolSpec.version_timeout spec)]
             /\ (shutil_which env (ToolSpec.command spec) = Ret (Some path)
                 \/ shutil_which env (ToolSpec.command spec) = Ret None
                    /\ In path (ToolSpec.fallback_paths spec)
                    /\ Path_is_file env path = Ret true)).
Proof.
  assert (Hloop : forall candidates s,
             exists checked,
               snd (probe_fallbacks env candidates s)
               = record (map Call_is_file checked) s
               /\ (exists rest, candidates = checked ++ rest)).
  { induction candidates as [|c rest IH]; intros s; simpl.
    - exists []. rewrite record_nil. split; [reflexivity | exists []; reflexivity].
    - unfold bind, is_file, lib_call.
      destruct (Path_is_file env c) as [[|]|le]; cbn [lift].
      + exists [c]. split; [reflexivity | exists rest; reflexivity].
      + destruct (IH (record [Call_is_file c] s)) as (checked & -> & rest' & ->).
        exists (c :: checked). rewrite record_record. split; [reflexivity|].
        exists rest'. reflexivity.
      + exists [c]. split; [reflexivity | exists rest; reflexivity]. }
  rewrite detect_one_eq, resolve_eq.
  destruct (shutil_which env (ToolSpec.command spec)) as [[p|]|le] eqn:Hw.
  - exists [], [Call_run [p; ToolSpec.version_flag spec]
                  (ToolSpec.version_timeout spec)].
    rewrite probe_version_eq. cbn [snd]. rewrite record_record.
    split; [reflexivity|]. split; [eexists; reflexivity|].
    split; [reflexivity|]. right. exists p. auto.
  - destruct (Hloop (ToolSpec.fallback_paths spec)
                (record [Call_which (ToolSpec.command spec)] st))
      as (checked & Hsnd & Hprefix).
    pose proof (probe_fallbacks_inv env (ToolSpec.fallback_paths spec)
                  (record [Call_which (ToolSpec.command spec)] st)) as Hi.
    destruct (probe_fallbacks env _ _) as [[[c|]|e] s]; cbn [fst snd] in *;
      subst s.
    + exists checked, [Call_run [c; ToolSpec.version_flag spec]
                         (ToolSpec.version_timeout spec)].
      rewrite probe_version_eq. cbn [snd]. rewrite !record_record.
      split; [reflexivity|]. split; [exact Hprefix|].
      split; [congruence|]. right. exists c. tauto.
    + exists checked, []. rewrite record_record, app_nil_r.
      split; [reflexivity|]. split; [exact Hprefix|].
      split; [congruence | left; reflexivity].
    + exists checked, []. rewrite record_record, app_nil_r.
      split; [reflexivity|]. split; [exact Hprefix|].
      split; [congruence | left; reflexivity].
  - exists [], []. split; [reflexivity|]. split; [eexists; reflexivity|].
    split; [reflexivity | left; reflexivity].
Qed.

Lemma detect_entries (env : Env) (st : state) (d : PyDict.dict ToolSpec)
  (rs : list ToolResult) :
  Forall (fun kv => PyDict.getitem (fst kv) (_specs st) = Some (snd kv)) d ->
  Forall2 (fun spec r => exists s, fst (_detect_one env spec s) = Ret r)
    (PyDict.values d) rs ->
  Forall2 (fun name r => fst (detect env name st) = Ret r) (PyDict.keys d) rs.
Proof.
  revert rs. induction d as [|[k spec] d IH]; intros rs Hentries H;
    inversion H as [|? r ? rs' [s Hr] Hrest]; subst; constructor.
  - inversion Hentries as [|? ? Hk _]; subst. simpl in Hk.
    change (fst (detect env k st) = Ret r).
    rewrite (detect_registered env k spec _ Hk).
    rewrite <- Hr. apply stateless_value, stateless_detect_one.
  - apply IH; [inversion Hentries; assumption | exact Hrest].
Qed.

(** X3. [detect_all] and [detect] agree: when [detect_all] returns, its
    results are, name by name in the order of the registry, the results
    that [detect] gives for each name. *)
Theorem detect_all_agrees_with_detect (env : Env) (specs : list ToolSpec)
  (rs : list ToolResult) :
  fst (detect_all env (registry_of specs)) = Ret rs ->
  Forall2 (fun name r => fst (detect env name (registry_of specs)) = Ret r)
    (PyDict.keys (_specs (registry_of specs))) rs.
Proof.
  intros H. unfold detect_all in H. apply comprehension_values in H.
  apply detect_entries; [|exact H].
  apply getitem_entry, registry_of_NoDup.
Qed.

Lemma detect_all_agrees_with_detect_witness :
  fst (detect_all mock_env (registry_of [exiftool_spec; slow_spec]))
  = Ret [ToolResult.mk "ExifTool" (Some "/usr/bin/exiftool") (Some "12.50")
           "available";
         ToolResult.mk "Slow" (Some "/usr/bin/slow") None "error"]
  /\ Forall2
       (fun name r =>
          fst (detect mock_env name (registry_of [exiftool_spec; slow_spec]))
          = Ret r)
       ["ExifTool"%string; "Slow"%string]
       [ToolResult.mk "ExifTool" (Some "/usr/bin/exiftool") (Some "12.50")
          "available";
        ToolResult.mk "Slow" (Some "/usr/bin/slow") None "error"].
Proof.
  split; [reflexivity|].
  exact (detect_all_agrees_with_detect mock_env [exiftool_spec; slow_spec]
           _ eq_refl).
Defined.

(** X4. Registering a specification that the registry already holds under
    its name changes nothing; so registering the same specification twice
    in a row is the same as registering it once. *)
Theorem register_again (spec : ToolSpec) (st : state) :
  (PyDict.getitem (ToolSpec.name spec) (_specs st) = Some spec ->
   snd (register spec st) = st)
  /\ snd (register spec (snd (register spec st))) = snd (register spec st).
Proof.
  assert (H : forall s,
             PyDict.getitem (ToolSpec.name spec) (_specs s) = Some spec ->
             snd (register spec s) = s).
  { intros [d cs] Hget. simpl in *. rewrite (setitem_getitem _ _ _ Hget).
    reflexivity. }
  split; [apply H|]. apply H. simpl.
  apply PyDictFacts.getitem_setitem_same.
Qed.

Lemma register_again_witness :
  PyDict.getitem "Multi" (_specs (registry_of [multi_spec; bad_spec]))
  = Some multi_spec
  /\ snd (register multi_spec (registry_of [multi_spec; bad_spec]))
     = registry_of [multi_spec; bad_spec].
Proof.
  split; [reflexivity|].
  apply (proj1 (register_again multi_spec (registry_of [multi_spec; bad_spec]))).
  reflexivity.
Defined.

(** ** [_compat]: the frozen state *)

(** X5. The state that [detect_frozen] reports is consistent: there is a
    bundler exactly when the process is frozen, which is when [sys.frozen]
    is set to a true value; the bundler is PyInstaller exactly when the
    process is frozen and [sys._MEIPASS] is set, and cx_Freeze exactly when
    it is frozen and [sys._MEIPASS] is not; [meipass] is reported whenever
    [sys._MEIPASS] is set, frozen or not. *)
Theorem detect_frozen_consistent (host : Host) :
  (FrozenState.is_frozen (detect_frozen host) = true
   <-> FrozenState.bundler (detect_frozen host) <> None)
  /\ (FrozenState.is_frozen (detect_frozen host) = true
      <-> exists v, sys_frozen host = Some v /\ attr_truthy v = true)
  /\ (FrozenState.bundler (detect_frozen host) = Some "PyInstaller"
      <-> FrozenState.is_frozen (detect_frozen host) = true
          /\ FrozenState.meipass (detect_frozen host) <> None)
  /\ (FrozenState.bundler (detect_frozen host) = Some "cx_Freeze"
      <-> FrozenState.is_frozen (detect_frozen host) = true
          /\ FrozenState.meipass (detect_frozen host) = None)
  /\ (FrozenState.meipass (detect_frozen host) = None
      <-> sys_MEIPASS host = None \/ sys_MEIPASS host = Some PyNone).
Proof.
  destruct host as [frozen meipass exe ver plat res].
  unfold detect_frozen. cbn [sys_frozen sys_MEIPASS sys_executable
    FrozenState.is_frozen FrozenState.bundler FrozenState.meipass].
  assert (Hf : attr_truthy (getattr frozen (PyBool false)) = true
               <-> exists v, frozen = Some v /\ attr_truthy v = true).
  { destruct frozen as [v|]; simpl.
    - split; [eauto | intros (v' & [= <-] & H); exact H].
    - split; [discriminate | intros (v' & H & _); discriminate]. }
  assert (Hm : is_not_None (getattr meipass PyNone) = false
               <-> meipass = None \/ meipass = Some PyNone).
  { destruct meipass as [[| |]|]; simpl; intuition congruence. }
  destruct (attr_truthy (getattr frozen (PyBool false)));
    destruct (is_not_None (getattr meipass PyNone));
    (split; [|split; [exact Hf|split; [|split]]]);
    try (apply Hm); intuition congruence.
Qed.

(** ** [info]: gathering *)

Lemma gather_info_eq (env : Env) (host : Host) (identity : AppIdentity)
  (registry : option unit) (caller_file : option string) (st : state) :
  gather_info env host identity registry caller_file st
  = match PyText.split_ws (sys_version host) with
    | [] => (Raise IndexError, st)
    | python_version :: _ =>
        match resolve_code_location host caller_file with
        | Raise e => (Raise e, st)
        | Ret code_location =>
            let execution :=
              execution_of host python_version code_location in
            match registry with
            | None => (Ret (AppInfo.mk identity execution []), st)
            | Some _ =>
                match detect_all env st with
                | (Ret tools, st') =>
                    (Ret (AppInfo.mk identity execution tools), st')
                | (Raise e, st') => (Raise e, st')
                end
            end
        end
    end.
Proof.
  unfold gather_info, bind, index0, of_outcome, ret, raise.
  destruct (PyText.split_ws (sys_version host)) as [|v vs]; [reflexivity|].
  destruct (resolve_code_location host caller_file) as [loc|e]; [|reflexivity].
  destruct registry as [[]|]; [|reflexivity].
  destruct (detect_all env st) as [[tools|e] st']; reflexivity.
Qed.

Lemma gather_info_inv (env : Env) (host : Host) (identity : AppIdentity)
  (registry : option unit) (caller_file : option string) (st : state)
  (info : AppInfo) :
  fst (gather_info env host identity registry caller_file st) = Ret info ->
  exists python_version rest code_location,
    PyText.split_ws (sys_version host) = python_version :: rest
    /\ resolve_code_location host caller_file = Ret code_location
    /\ AppInfo.identity info = identity
    /\ AppInfo.execution info
       = execution_of host python_version code_location
    /\ match registry with
       | None => AppInfo.tools info = []
       | Some _ => fst (detect_all env st) = Ret (AppInfo.tools info)
       end.
Proof.
  rewrite gather_info_eq.
  destruct (PyText.split_ws (sys_version host)) as [|v vs]; [discriminate|].
  destruct (resolve_code_location host caller_file) as [loc|e]; [|discriminate].
  cbv zeta. destruct registry as [[]|].
  - destruct (detect_all env st) as [[tools|e] st']; [|discriminate].
    intros [= <-]. exists v, vs, loc. auto.
  - intros [= <-]. exists v, vs, loc. auto.
Qed.

(** X6. The execution details of an [AppInfo] that [gather_info] returns
    agree with each other and with the host: the mode is "Compiled
    executable" exactly when [is_frozen], and "Python source" otherwise;
    there is a bundler exactly when [is_frozen]; a frozen process, and one
    for which no caller file is given, has [sys.executable] as code
    location; otherwise the code location is the resolved caller file. The
    identity is the one passed in. *)
Theorem gather_info_execution (env : Env) (host : Host)
  (identity : AppIdentity) (registry : option unit)
  (caller_file : option string) (st : state) (info : AppInfo) :
  fst (gather_info env host identity registry caller_file st) = Ret info ->
  let exe := AppInfo.execution info in
  AppInfo.identity info = identity
  /\ ExecutionInfo.python_executable exe = sys_executable host
  /\ ExecutionInfo.os_platform exe = platform_platform host
  /\ (ExecutionInfo.is_frozen exe = true
      <-> ExecutionInfo.execution_mode exe = "Compiled executable"%string)
  /\ (ExecutionInfo.is_frozen exe = false
      <-> ExecutionInfo.execution_mode exe = "Python source"%string)
  /\ (ExecutionInfo.is_frozen exe = true
      <-> ExecutionInfo.bundler exe <> None)
  /\ (ExecutionInfo.is_frozen exe = true \/ caller_file = None ->
      ExecutionInfo.code_location exe = sys_executable host)
  /\ (ExecutionInfo.is_frozen exe = false ->
      forall file, caller_file = Some file ->
                   Path_resolve host file
                   = Ret (ExecutionInfo.code_location exe)).
Proof.
  intros H. apply gather_info_inv in H.
  destruct H as (v & vs & loc & _ & Hloc & Hid & Hexe & _).
  cbv zeta. rewrite Hexe. unfold execution_of.
  cbn [ExecutionInfo.python_executable ExecutionInfo.os_platform
       ExecutionInfo.is_frozen ExecutionInfo.execution_mode
       ExecutionInfo.bundler ExecutionInfo.code_location].
  pose proof (proj1 (detect_frozen_consistent host)) as Hb.
  unfold resolve_code_location in Hloc.
  change (FrozenState.executable_path (detect_frozen host))
    with (sys_executable host) in Hloc.
  destruct (FrozenState.is_frozen (detect_frozen host)).
  - injection Hloc as <-.
    repeat split; try tauto; try congruence; try discriminate.
  - repeat split; try tauto; try congruence; try discriminate.
    + intros [Hf | ->]; [discriminate | congruence].
    + intros _ file ->.
      destruct (Path_resolve host file); cbn [lift] in Hloc; congruence.
Qed.

Lemma gather_info_execution_witness :
  fst (gather_info mock_env frozen_host demo_identity None (Some "app.py")
         __init__)
  = Ret (AppInfo.mk demo_identity
           (ExecutionInfo.mk "/opt/app/app" "3.12.0" "/opt/app/app"
              "Linux-6.1-x86_64" true "Compiled executable"
              (Some "PyInstaller"))
           [])
  /\ ExecutionInfo.bundler
       (ExecutionInfo.mk "/opt/app/app" "3.12.0" "/opt/app/app"
          "Linux-6.1-x86_64" true "Compiled executable" (Some "PyInstaller"))
     <> None.
Proof.
  split; [reflexivity|].
  destruct (gather_info_execution mock_env frozen_host demo_identity None
              (Some "app.py"%string) __init__ _ eq_refl)
    as (_ & _ & _ & _ & _ & Hb & _).
  apply Hb. reflexivity.
Defined.

(** *** The first word of [sys.version] *)

Lemma split_ws_cons (c : ascii) (s : string) :
  PyText.split_ws (String c s)
  = if PyStr.isspace c then PyText.split_ws s
    else
      match s with
      | EmptyString => [String c EmptyString]
      | String c' _ =>
          if PyStr.isspace c' then String c EmptyString :: PyText.split_ws s
          else
            match PyText.split_ws s with
            | word :: words => String c word :: words
            | [] => [String c EmptyString]
            end
      end.
Proof. reflexivity. Qed.

Lemma all_space_cons (c : ascii) (s : string) :
  PyStr.all_space (String c s) = PyStr.isspace c && PyStr.all_space s.
Proof. reflexivity. Qed.

Lemma no_space_cons (c : ascii) (s : string) :
  PyText.no_space (String c s) = negb (PyStr.isspace c) && PyText.no_space s.
Proof. reflexivity. Qed.

(** [split()] gives no piece exactly for a text of whitespace only. *)
Lemma split_ws_nil (s : string) :
  PyText.split_ws s = [] <-> PyStr.all_space s = true.
Proof.
  induction s as [|c s IH]; [split; reflexivity|].
  rewrite split_ws_cons, all_space_cons.
  destruct (PyStr.isspace c); [exact IH|].
  split; [|discriminate].
  destruct s as [|c' s']; [discriminate|].
  destruct (PyStr.isspace c'); [discriminate|].
  destruct (PyText.split_ws (String c' s')); discriminate.
Qed.

(** The first piece of [split()]: what precedes it is whitespace, it has no
    whitespace and is not empty, and it ends at the end of the text or
    before a whitespace character. *)
Lemma split_ws_first (s w : string) (ws : list string) :
  PyText.split_ws s = w :: ws ->
  w <> EmptyString
  /\ PyText.no_space w = true
  /\ exists pre post,
       s = (pre ++ w ++ post)%string
       /\ PyStr.all_space pre = true
       /\ (post = EmptyString
           \/ exists c post', post = String c post' /\ PyStr.isspace c = true).
Proof.
  revert w ws. induction s as [|c s IH]; intros w ws; [discriminate|].
  rewrite split_ws_cons. destruct (PyStr.isspace c) eqn:Ec.
  - intros H. destruct (IH w ws H) as (Hne & Hns & pre & post & -> & Hpre & Hpost).
    split; [exact Hne|]. split; [exact Hns|].
    exists (String c pre), post. rewrite all_space_cons, Ec, Hpre. auto.
  - assert (Hone : PyText.no_space (String c EmptyString) = true)
      by (rewrite no_space_cons, Ec; reflexivity).
    destruct s as [|c' s'].
    + intros [= <- <-]. split; [discriminate|]. split; [exact Hone|].
      exists EmptyString, EmptyString. auto.
    + destruct (PyStr.isspace c') eqn:Ec'.
      * intros [= <- <-]. split; [discriminate|]. split; [exact Hone|].
        exists EmptyString, (String c' s'). split; [reflexivity|].
        split; [reflexivity|]. right. eauto.
      * destruct (PyText.split_ws (String c' s')) as [|word words] eqn:Es.
        -- apply split_ws_nil in Es. rewrite all_space_cons, Ec' in Es.
           discriminate.
        -- intros [= <- <-].
           destruct (IH word words eq_refl)
             as (_ & Hns & pre & post & Heq & Hpre & Hpost).
           split; [discriminate|].
           split; [rewrite no_space_cons, Ec, Hns; reflexivity|].
           destruct pre as [|p pre'].
           ++ exists EmptyString, post. simpl in *. rewrite Heq. auto.
           ++ simpl in Heq. injection Heq as <- _.
              rewrite all_space_cons, Ec' in Hpre. discriminate.
Qed.

(** X7. The [python_version] of an [AppInfo] that [gather_info] returns is
    the first word of [sys.version]: it is not empty and has no whitespace
    in it, only whitespace precedes it, and it ends where [sys.version]
    ends or a whitespace character follows. *)
Theorem gather_info_python_version (env : Env) (host : Host)
  (identity : AppIdentity) (registry : option unit)
  (caller_file : option string) (st : state) (info : AppInfo) :
  fst (gather_info env host identity registry caller_file st) = Ret info ->
  let v := ExecutionInfo.python_version (AppInfo.execution info) in
  v <> EmptyString
  /\ PyText.no_space v = true
  /\ exists pre post,
       sys_version host = (pre ++ v ++ post)%string
       /\ PyStr.all_space pre = true
       /\ (post = EmptyString
           \/ exists c post', post = String c post' /\ PyStr.isspace c = true).
Proof.
  intros H. apply gather_info_inv in H.
  destruct H as (v & vs & loc & Hv & _ & _ & Hexe & _).
  cbv zeta. rewrite Hexe. exact (split_ws_first _ _ _ Hv).
Qed.

Lemma gather_info_python_version_witness :
  fst (gather_info mock_env source_host demo_identity None None __init__)
  = Ret (AppInfo.mk demo_identity
           (ExecutionInfo.mk "/usr/bin/python3" "3.12.0" "/usr/bin/python3"
              "Linux-6.1-x86_64" false "Python source" None)
           [])
  /\ PyText.no_space "3.12.0" = true.
Proof.
  split; [reflexivity|].
  exact (proj1 (proj2 (gather_info_python_version mock_env source_host
                         demo_identity None None __init__ _ eq_refl))).
Defined.

(** *** The exceptions of [gather_info] *)

(** What [_detect_one] raises is an exception of a library call. *)
Lemma detect_one_raises (env : Env) (spec : ToolSpec) (st : state) (e : exn) :
  fst (_detect_one env spec st) = Raise e -> exists le, e = LibError le.
Proof.
  rewrite detect_one_eq, resolve_eq.
  assert (Hpv : forall path s,
             fst (probe_version env spec path s) = Raise e ->
             exists le, e = LibError le).
  { intros path s. rewrite probe_version_eq. cbn [fst].
    destruct (subprocess_run env _ _) as [proc|le].
    - destruct (returncode proc =? 0)%Z; discriminate.
    - destruct (caught (LibError le)); [discriminate|].
      intros [= <-]. eauto. }
  destruct (shutil_which env (ToolSpec.command spec)) as [[p|]|le].
  - apply Hpv.
  - pose proof (probe_fallbacks_inv env (ToolSpec.fallback_paths spec)
                  (record [Call_which (ToolSpec.command spec)] st)) as Hi.
    destruct (probe_fallbacks env _ _) as [[[c|]|e'] s]; simpl in Hi.
    + apply Hpv.
    + discriminate.
    + simpl. intros [= <-]. destruct Hi as (c & le & -> & _). eauto.
  - simpl. intros [= <-]. eauto.
Qed.

Lemma comprehension_raises {A B : Type} (f : A -> M B) (xs : list A)
  (st : state) (e : exn) :
  fst (comprehension f xs st) = Raise e ->
  exists x s, In x xs /\ fst (f x s) = Raise e.
Proof.
  revert st. induction xs as [|x xs IH]; intros st; simpl; [discriminate|].
  unfold bind. destruct (f x st) as [[y|e'] st1] eqn:Hx.
  - destruct (comprehension f xs st1) as [[ys|e'] st2] eqn:Hxs;
      [discriminate|].
    simpl. intros [= <-].
    destruct (IH st1) as (x' & s & Hin & Hr); [rewrite Hxs; reflexivity|].
    exists x', s. auto.
  - simpl. intros [= <-]. exists x, st. rewrite Hx. auto.
Qed.

(** X8. The exceptions of [gather_info]. It raises [IndexError] exactly when
    [sys.version] is nothing but whitespace. Any other exception is one of a
    library call: of [Path.resolve] on the caller file, in a process that
    is not frozen, or of the detection of a registered tool. In the first
    two cases no tool was probed. *)
Theorem gather_info_exceptions (env : Env) (host : Host)
  (identity : AppIdentity) (registry : option unit)
  (caller_file : option string) (st : state) :
  (fst (gather_info env host identity registry caller_file st)
   = Raise IndexError
   <-> PyStr.all_space (sys_version host) = true)
  /\ forall e,
       fst (gather_info env host identity registry caller_file st) = Raise e ->
       (e = IndexError
        /\ snd (gather_info env host identity registry caller_file st) = st)
       \/ (exists le file,
             e = LibError le
             /\ caller_file = Some file
             /\ Path_resolve host file = Raise le
             /\ FrozenState.is_frozen (detect_frozen host) = false
             /\ snd (gather_info env host identity registry caller_file st)
                = st)
       \/ (exists le spec s,
             e = LibError le
             /\ registry = Some tt
             /\ In spec (PyDict.values (_specs st))
             /\ fst (_detect_one env spec s) = Raise e).
Proof.
  assert (Hres : forall e,
             resolve_code_location host caller_file = Raise e ->
             exists le file,
               e = LibError le /\ caller_file = Some file
               /\ Path_resolve host file = Raise le
               /\ FrozenState.is_frozen (detect_frozen host) = false).
  { intros e. unfold resolve_code_location.
    destruct (FrozenState.is_frozen (detect_frozen host)); [discriminate|].
    destruct caller_file as [file|]; [|discriminate].
    destruct (Path_resolve host file) as [p|le] eqn:E; [discriminate|].
    simpl. intros [= <-]. exists le, file. auto. }
  assert (Hall : forall e,
             fst (detect_all env st) = Raise e ->
             exists le spec s,
               e = LibError le /\ In spec (PyDict.values (_specs st))
               /\ fst (_detect_one env spec s) = Raise e).
  { intros e H. unfold detect_all in H. apply comprehension_raises in H.
    destruct H as (spec & s & Hin & Hr).
    destruct (detect_one_raises env spec s e Hr) as [le ->]. eauto 6. }
  rewrite gather_info_eq.
  destruct (PyText.split_ws (sys_version host)) as [|v vs] eqn:Ev.
  - apply split_ws_nil in Ev. split; [tauto|].
    intros e [= <-]. left. auto.
  - assert (Hns : PyStr.all_space (sys_version host) <> true).
    { intros H. apply split_ws_nil in H. congruence. }
    destruct (resolve_code_location host caller_file) as [loc|e0] eqn:Er.
    + cbv zeta. destruct registry as [[]|].
      * destruct (detect_all env st) as [[tools|e0] st'] eqn:Ed.
        -- split; [split; [discriminate | tauto] | discriminate].
        -- destruct (Hall e0 eq_refl) as (le & spec & s & -> & Hin & Hr).
           split; [split; [discriminate | tauto]|].
           intros e [= <-]. right. right. exists le, spec, s. auto.
      * split; [split; [discriminate | tauto] | discriminate].
    + destruct (Hres e0 eq_refl) as (le & file & -> & Hc & Hp & Hf).
      split; [split; [discriminate | tauto]|].
      intros e [= <-]. right. left. exists le, file. auto.
Qed.

Lemma gather_info_exceptions_witness :
  PyStr.all_space (sys_version blank_host) = true
  /\ fst (gather_info mock_env blank_host demo_identity (Some tt) None
            (registry_of [exiftool_spec]))
     = Raise IndexError.
Proof.
  split; [reflexivity|].
  apply (proj1 (gather_info_exceptions mock_env blank_host demo_identity
                  (Some tt) None (registry_of [exiftool_spec]))).
  reflexivity.
Defined.

(** X9. [gather_info] returns when the calls it makes do not fail:
    [sys.version] has a word in it; the caller file, if one is given to a
    process that is not frozen, can be resolved; and, if a registry is
    given, the calls that the detection of each of its specifications makes
    raise nothing but what [_detect_one] catches. Its tools are then the
    results of detecting the specifications of the registry, one each and in
    order; without a registry there are none, and nothing is asked of the
    tool environment. *)
Theorem gather_info_returns (env : Env) (host : Host) (identity : AppIdentity)
  (registry : option unit) (caller_file : option string) (st : state) :
  PyStr.all_space (sys_version host) = false ->
  (FrozenState.is_frozen (detect_frozen host) = false ->
   forall file, caller_file = Some file ->
                exists p, Path_resolve host file = Ret p) ->
  (registry = Some tt ->
   forall spec, In spec (PyDict.values (_specs st)) ->
                failures_caught env spec) ->
  exists info,
    fst (gather_info env host identity registry caller_file st) = Ret info
    /\ AppInfo.identity info = identity
    /\ match registry with
       | None => AppInfo.tools info = []
       | Some _ =>
           Forall2 (detects env) (PyDict.values (_specs st))
             (AppInfo.tools info)
       end.
Proof.
  intros Hver Hfile Henv. rewrite gather_info_eq.
  destruct (PyText.split_ws (sys_version host)) as [|v vs] eqn:Ev.
  { apply split_ws_nil in Ev. congruence. }
  assert (Hloc : exists loc, resolve_code_location host caller_file = Ret loc).
  { unfold resolve_code_location.
    destruct (FrozenState.is_frozen (detect_frozen host)); [eauto|].
    destruct caller_file as [file|]; [|eauto].
    destruct (Hfile eq_refl file eq_refl) as [p ->]. simpl. eauto. }
  destruct Hloc as [loc ->]. cbv zeta. destruct registry as [[]|].
  - destruct (comprehension_Forall2 (_detect_one env) (detects env)
                (PyDict.values (_specs st))) as (rs & Hrs & Hval).
    { intros spec Hin.
      destruct (proj1 (detect_one_returns env spec) (Henv eq_refl spec Hin))
        as [r Hr].
      exists r. split; exact Hr. }
    specialize (Hval st). fold (detect_all env st) in Hval.
    destruct (detect_all env st) as [r st']. simpl in Hval. subst r.
    eexists. split; [reflexivity|]. split; [reflexivity | exact Hrs].
  - eexists. split; [reflexivity|]. split; reflexivity.
Qed.

Lemma gather_info_returns_witness :
  PyStr.all_space (sys_version source_host) = false
  /\ exists info,
       fst (gather_info strict_env source_host demo_identity (Some tt)
              (Some "app.py") (registry_of [exiftool_spec; missing_spec]))
       = Ret info
       /\ AppInfo.identity info = demo_identity
       /\ Forall2 (detects strict_env) [exiftool_spec; missing_spec]
            (AppInfo.tools info).
Proof.
  split; [reflexivity|].
  destruct (gather_info_returns strict_env source_host demo_identity (Some tt)
              (Some "app.py"%string)
              (registry_of [exiftool_spec; missing_spec]) eq_refl)
    as (info & Hret & Hid & Htools).
  - intros _ file _. eexists. reflexivity.
  - intros _ spec Hin. apply detect_one_returns.
    destruct Hin as [<- | [<- | []]]; eexists;
      eapply detects_of_run with (st := __init__); reflexivity.
  - exists info. split; [exact Hret|]. split; [exact Hid | exact Htools].
Defined.

(** X10. [gather_info] leaves the registry as it was, whether it returns or
    raises; without a registry it makes no library call of the tool
    detection at all. *)
Theorem gather_info_leaves_registry (env : Env) (host : Host)
  (identity : AppIdentity) (registry : option unit)
  (caller_file : option string) (st : state) :
  _specs (snd (gather_info env host identity registry caller_file st))
  = _specs st
  /\ snd (gather_info env host identity None caller_file st) = st.
Proof.
  rewrite !gather_info_eq.
  destruct (PyText.split_ws (sys_version host)) as [|v vs]; [auto|].
  destruct (resolve_code_location host caller_file) as [loc|e]; [|auto].
  cbv zeta. split; [|reflexivity]. destruct registry as [[]|]; [|reflexivity].
  assert (H : _specs (snd (detect_all env st)) = _specs st).
  { unfold detect_all.
    apply stateless_specs, stateless_comprehension, stateless_detect_one. }
  destruct (detect_all env st) as [[tools|e] st']; exact H.
Qed.

(** ** [info]: the dict and the summary *)

Lemma map_injective {A B : Type} (f : A -> B) (l l' : list A) :
  (forall x y, f x = f y -> x = y) -> map f l = map f l' -> l = l'.
Proof.
  intros Hf. revert l'. induction l as [|x l IH]; intros [|y l'] H;
    try discriminate; [reflexivity|].
  simpl in H. injection H as Hx Hl. f_equal; auto.
Qed.

Lemma plain_of_opt_injective (o o' : option string) :
  plain_of_opt o = plain_of_opt o' -> o = o'.
Proof. destruct o, o'; simpl; congruence. Qed.

(** X11. [to_dict] loses nothing: two [AppInfo] with the same dict are the
    same, field by field and tool by tool. *)
Theorem to_dict_injective (a b : AppInfo) : to_dict a = to_dict b -> a = b.
Proof.
  destruct a as [[n1 s1 v1 c1 a1 d1 f1] [pe1 pv1 cl1 os1 fr1 em1 bu1] t1].
  destruct b as [[n2 s2 v2 c2 a2 d2 f2] [pe2 pv2 cl2 os2 fr2 em2 bu2] t2].
  unfold to_dict. cbn [AppInfo.identity AppInfo.execution AppInfo.tools
    AppIdentity.name AppIdentity.short_name AppIdentity.version
    AppIdentity.commit_date AppIdentity.author AppIdentity.description
    AppIdentity.features ExecutionInfo.python_executable
    ExecutionInfo.python_version ExecutionInfo.code_location
    ExecutionInfo.os_platform ExecutionInfo.is_frozen
    ExecutionInfo.execution_mode ExecutionInfo.bundler].
  intros H. injection H as Hn Hs Hv Hc Ha Hd Hf Hpe Hpv Hcl Hos Hfr Hem Hbu Ht.
  apply plain_of_opt_injective in Hbu.
  apply map_injective in Hf; [|intros x y [= ->]; reflexivity].
  apply map_injective in Ht.
  - subst. reflexivity.
  - intros [xn xp xv xs] [yn yp yv ys]. simpl. intros Hxy.
    injection Hxy as En Ep Ev Es.
    apply plain_of_opt_injective in Ep, Ev. subst. reflexivity.
Qed.

Lemma to_dict_injective_witness :
  to_dict demo_info = to_dict demo_info /\ demo_info = demo_info.
Proof.
  split; [reflexivity|]. apply to_dict_injective. reflexivity.
Defined.

(** X12. The shape of [summary_lines]: the title first; then one line for
    each of version, commit date and description that is not empty; then
    six lines, a blank one and five of the execution; then one line per
    tool, in the order of the tools. The author and the features take no
    line. *)
Theorem summary_lines_shape (self : AppInfo) :
  let ident := AppInfo.identity self in
  let optional :=
    Nat.b2n (PyText.truthy (AppIdentity.version ident))
    + Nat.b2n (PyText.truthy (AppIdentity.commit_date ident))
    + Nat.b2n (PyText.truthy (AppIdentity.description ident)) in
  length (summary_lines self) = 7 + optional + length (AppInfo.tools self)
  /\ hd_error (summary_lines self) = Some (title_of ident)
  /\ nth_error (summary_lines self) (1 + optional) = Some EmptyString
  /\ skipn (7 + optional) (summary_lines self)
     = map tool_line (AppInfo.tools self).
Proof.
  unfold summary_lines. cbv zeta.
  destruct (PyText.truthy (AppIdentity.version (AppInfo.identity self)));
    destruct (PyText.truthy (AppIdentity.commit_date (AppInfo.identity self)));
    destruct (PyText.truthy (AppIdentity.description (AppInfo.identity self)));
    cbn [Nat.b2n Nat.add List.concat app length hd_error nth_error skipn];
    rewrite app_nil_r, length_map; auto.
Qed.

(** The three forms of a result of [_detect_one]. *)
Lemma detect_one_shape (env : Env) (spec : ToolSpec) (st : state)
  (r : ToolResult) :
  fst (_detect_one env spec st) = Ret r ->
  r = ToolResult.mk (ToolSpec.name spec) None None "not_found"
  \/ exists p,
       r = ToolResult.mk (ToolSpec.name spec) (Some p) None "error"
       \/ exists v,
            r = ToolResult.mk (ToolSpec.name spec) (Some p) (Some v)
                  "available".
Proof.
  rewrite detect_one_eq.
  destruct (resolve env spec st) as [[[path|]|e] st'].
  - rewrite probe_version_eq. cbn [fst].
    destruct (subprocess_run env _ _) as [proc|le].
    + destruct (returncode proc =? 0)%Z; intros [= <-]; eauto.
    + destruct (caught (LibError le)); [|discriminate].
      intros [= <-]. eauto.
  - simpl. intros [= <-]. auto.
  - discriminate.
Qed.

Lemma detected_line_of_shape (env : Env) (spec : ToolSpec) (st : state)
  (r : ToolResult) :
  fst (_detect_one env spec st) = Ret r -> detected_line r.
Proof.
  intros H. apply detect_one_shape in H. unfold detected_line.
  destruct H as [-> | [p [-> | [v ->]]]].
  - right. right. split; reflexivity.
  - right. left. exists p. split; [reflexivity|].
    unfold tool_line. cbn [ToolResult.status ToolResult.path ToolResult.name
      PyText.truthy_opt PyText.format_opt].
    change (String.eqb "error" "available") with false. cbv iota.
    destruct (PyText.truthy p); reflexivity.
  - left. exists p, v. split; reflexivity.
Qed.

(** X13. The summary line of a tool that [detect] or [detect_all] found or
    did not find: an available tool is shown with its version and its path,
    a tool in error with its path and no version, a tool not found with
    neither; the text "None" of an absent path or version is never shown. A
    tool in error whose path is the empty string is shown as not found. *)
Theorem summary_of_detection (env : Env) (st : state) :
  (forall name r, fst (detect env name st) = Ret r -> detected_line r)
  /\ (forall rs, fst (detect_all env st) = Ret rs -> Forall detected_line rs).
Proof.
  split.
  - intros name r H. apply detect_inv in H. destruct H as (spec & _ & H).
    exact (detected_line_of_shape env spec st r H).
  - intros rs H. unfold detect_all in H.
    apply (comprehension_Forall (_detect_one env) detected_line
             (PyDict.values (_specs st)) st rs); [|exact H].
    intros spec s r _ Hr. exact (detected_line_of_shape env spec s r Hr).
Qed.

Lemma summary_of_detection_witness :
  fst (detect mock_env "Slow" (registry_of [slow_spec]))
  = Ret (ToolResult.mk "Slow" (Some "/usr/bin/slow") None "error")
  /\ detected_line (ToolResult.mk "Slow" (Some "/usr/bin/slow") None "error").
Proof.
  split; [reflexivity|].
  apply (proj1 (summary_of_detection mock_env (registry_of [slow_spec]))
           "Slow"%string).
  reflexivity.
Defined.

(** ** The dialog: escaping *)

Module EscFacts.
Local Open Scope string_scope.

Lemma app_assoc_string (a b c : string) : (a ++ b) ++ c = a ++ (b ++ c).
Proof.
  induction a as [|x a IH]; simpl; [reflexivity | rewrite IH; reflexivity].
Qed.

Lemma replace_app (old : ascii) (new a b : string) :
  PyText.replace old new (a ++ b)
  = PyText.replace old new a ++ PyText.replace old new b.
Proof.
  induction a as [|c a IH]; simpl; [reflexivity|].
  destruct (Ascii.eqb c old); rewrite IH.
  - rewrite app_assoc_string. reflexivity.
  - reflexivity.
Qed.

(** [_esc] works character by character: the three replacements in a row
    do not touch what an earlier one put in. *)
Lemma esc_cons (c : ascii) (s : string) :
  _esc (String c s) = escape_char c ++ _esc s.
Proof.
  unfold _esc, escape_char. cbn [PyText.replace].
  destruct (Ascii.eqb_spec c "&") as [-> | Hamp].
  - rewrite !replace_app. reflexivity.
  - cbn [PyText.replace]. destruct (Ascii.eqb_spec c "<") as [-> | Hlt].
    + rewrite !replace_app. reflexivity.
    + cbn [PyText.replace]. destruct (Ascii.eqb_spec c ">") as [-> | Hgt];
        reflexivity.
Qed.

Lemma count_app (c : ascii) (a b : string) :
  PyText.count c (a ++ b) = PyText.count c a + PyText.count c b.
Proof.
  induction a as [|x a IH]; simpl; [reflexivity|]. rewrite IH. lia.
Qed.

Lemma length_app (a b : string) :
  String.length (a ++ b) = String.length a + String.length b.
Proof.
  induction a as [|x a IH]; simpl; [reflexivity | rewrite IH; reflexivity].
Qed.

(** What one character contributes to the counts and to the length. *)
Lemma escape_char_counts (c : ascii) :
  PyText.count "<" (escape_char c) = 0
  /\ PyText.count ">" (escape_char c) = 0
  /\ PyText.count "&" (escape_char c) = specials (String c "")
  /\ String.length (escape_char c)
     = 1 + 4 * PyText.count "&" (String c "")
       + 3 * PyText.count "<" (String c "")
       + 3 * PyText.count ">" (String c "").
Proof.
  unfold escape_char, specials. cbn [PyText.count].
  destruct (Ascii.eqb_spec c "&") as [-> | Hamp]; [repeat split|].
  destruct (Ascii.eqb_spec c "<") as [-> | Hlt]; [repeat split|].
  destruct (Ascii.eqb_spec c ">") as [-> | Hgt]; [repeat split|].
  cbn [PyText.count String.length].
  apply Ascii.eqb_neq in Hamp, Hlt, Hgt. rewrite Hamp, Hlt, Hgt. auto.
Qed.

Lemma specials_cons (c : ascii) (s : string) :
  specials (String c s) = specials (String c "") + specials s.
Proof. unfold specials. cbn [PyText.count]. lia. Qed.

Lemma esc_counts (s : string) :
  PyText.count "<" (_esc s) = 0
  /\ PyText.count ">" (_esc s) = 0
  /\ PyText.count "&" (_esc s) = specials s
  /\ String.length (_esc s)
     = String.length s + 4 * PyText.count "&" s + 3 * PyText.count "<" s
       + 3 * PyText.count ">" s.
Proof.
  induction s as [|c s (IHlt & IHgt & IHamp & IHlen)]; [repeat split|].
  destruct (escape_char_counts c) as (Hlt & Hgt & Hamp & Hlen).
  rewrite esc_cons, !count_app, length_app, specials_cons.
  rewrite Hlt, Hgt, Hamp, Hlen, IHlt, IHgt, IHamp, IHlen.
  cbn [PyText.count String.length]. repeat split; lia.
Qed.

Lemma esc_plain (s : string) : specials s = 0 -> _esc s = s.
Proof.
  induction s as [|c s IH]; [reflexivity|].
  rewrite specials_cons. intros H. rewrite esc_cons, IH by lia.
  assert (Hc : specials (String c "") = 0) by lia.
  unfold specials in Hc. cbn [PyText.count] in Hc. unfold escape_char.
  destruct (Ascii.eqb c "&"); [simpl in Hc; lia|].
  destruct (Ascii.eqb c "<"); [simpl in Hc; lia|].
  destruct (Ascii.eqb c ">"); [simpl in Hc; lia|]. reflexivity.
Qed.

End EscFacts.

(** X14. The text that [_esc] returns has no [<] and no [>] in it, and as
    many [&] as the text it was given has [&], [<] and [>] together: every
    one of them begins an entity that [_esc] wrote. *)
Theorem esc_has_no_markup (text : string) :
  PyText.count "<" (_esc text) = 0
  /\ PyText.count ">" (_esc text) = 0
  /\ PyText.count "&" (_esc text) = specials text.
Proof.
  destruct (EscFacts.esc_counts text) as (H1 & H2 & H3 & _). auto.
Qed.

(** X15. [_esc] works piece by piece: the escaped concatenation is the
    concatenation of the escaped texts. An entity that the first
    replacement wrote is not touched by the later ones. *)
Theorem esc_concatenation (s t : string) :
  _esc (s ++ t)%string = (_esc s ++ _esc t)%string.
Proof.
  induction s as [|c s IH]; [reflexivity|].
  change (String c s ++ t)%string with (String c (s ++ t)%string).
  rewrite !EscFacts.esc_cons, IH, EscFacts.app_assoc_string. reflexivity.
Qed.

(** X16. [_esc] makes a text longer by four characters for each [&] and by
    three for each [<] and [>]; it leaves a text as it is exactly when the
    text has none of the three; and escaping an escaped text again changes
    it, unless there was nothing to escape. *)
Theorem esc_length_and_fixed_points (text : string) :
  String.length (_esc text)
  = String.length text + 4 * PyText.count "&" text
    + 3 * PyText.count "<" text + 3 * PyText.count ">" text
  /\ (_esc text = text <-> specials text = 0)
  /\ (_esc (_esc text) = _esc text <-> specials text = 0).
Proof.
  destruct (EscFacts.esc_counts text) as (_ & _ & _ & Hlen).
  assert (Hfix : forall s, _esc s = s <-> specials s = 0).
  { intros s. split; [|apply EscFacts.esc_plain].
    intros H. destruct (EscFacts.esc_counts s) as (_ & _ & _ & Hl).
    rewrite H in Hl. unfold specials. lia. }
  split; [exact Hlen|]. split; [apply Hfix|].
  rewrite Hfix. destruct (EscFacts.esc_counts text) as (Hlt & Hgt & Hamp & _).
  unfold specials at 1. rewrite Hlt, Hgt, Hamp. lia.
Qed.

(** X17. [_esc] is injective: two texts that are shown the same are the
    same. *)
Theorem esc_injective (s t : string) : _esc s = _esc t -> s = t.
Proof.
  revert t. induction s as [|c s IH]; intros [|d t] H.
  - reflexivity.
  - exfalso. rewrite EscFacts.esc_cons in H. unfold escape_char in H.
    destruct (Ascii.eqb d "&"); [discriminate|].
    destruct (Ascii.eqb d "<"); [discriminate|].
    destruct (Ascii.eqb d ">"); discriminate.
  - exfalso. rewrite EscFacts.esc_cons in H. unfold escape_char in H.
    destruct (Ascii.eqb c "&"); [discriminate|].
    destruct (Ascii.eqb c "<"); [discriminate|].
    destruct (Ascii.eqb c ">"); discriminate.
  - rewrite !EscFacts.esc_cons in H. unfold escape_char in H.
    destruct (Ascii.eqb_spec c "&") as [-> | Hc1];
      [|destruct (Ascii.eqb_spec c "<") as [-> | Hc2];
        [|destruct (Ascii.eqb_spec c ">") as [-> | Hc3]]];
      (destruct (Ascii.eqb_spec d "&") as [-> | Hd1];
       [|destruct (Ascii.eqb_spec d "<") as [-> | Hd2];
         [|destruct (Ascii.eqb_spec d ">") as [-> | Hd3]]]);
      cbn [String.append] in H; try discriminate H;
      injection H; intros; subst; try congruence;
      f_equal; apply IH; assumption.
Qed.

Lemma esc_injective_witness :
  _esc "a<b" = _esc "a<b" /\ "a<b"%string = "a<b"%string.
Proof.
  split; [reflexivity|]. apply esc_injective. reflexivity.
Defined.

(** ** The dialog: its markup *)

Lemma count_lt_esc (s : string) : PyText.count "<" (_esc s) = 0.
Proof. exact (proj1 (EscFacts.esc_counts s)). Qed.

Lemma count_gt_esc (s : string) : PyText.count ">" (_esc s) = 0.
Proof. exact (proj1 (proj2 (EscFacts.esc_counts s))). Qed.

Lemma count_join (c : ascii) (parts : list string) :
  PyText.count c (PyText.join parts) = list_sum (map (PyText.count c) parts).
Proof.
  unfold PyText.join. induction parts as [|x parts IH]; [reflexivity|].
  destruct parts as [|y parts].
  - simpl. lia.
  - change (String.concat "" (x :: y :: parts))
      with (x ++ "" ++ String.concat "" (y :: parts))%string.
    rewrite !EscFacts.count_app, IH. simpl. lia.
Qed.

Lemma list_sum_cons (x : nat) (l : list nat) :
  list_sum (x :: l) = x + list_sum l.
Proof. reflexivity. Qed.

Lemma list_sum_nil : list_sum [] = 0.
Proof. reflexivity. Qed.

Ltac sum_pieces :=
  repeat (progress (cbn [List.concat app map];
                    rewrite ?map_app, ?list_sum_app, ?list_sum_cons,
                      ?list_sum_nil)).

Ltac count_markup :=
  repeat rewrite EscFacts.count_app;
  repeat rewrite count_lt_esc; repeat rewrite count_gt_esc;
  cbn [PyText.count Ascii.eqb Bool.eqb Nat.add].

Lemma count_tool_html (tool : ToolResult) :
  PyText.count "<" (tool_html tool) = 4 + Nat.b2n (shows_path tool)
  /\ PyText.count ">" (tool_html tool) = 4 + Nat.b2n (shows_path tool).
Proof.
  unfold tool_html, shows_path.
  destruct (String.eqb (ToolResult.status tool) "available");
    [|destruct (PyText.truthy_opt (ToolResult.path tool))];
    split; count_markup; reflexivity.
Qed.

Lemma count_tools_html (c : ascii) (tools : list ToolResult) :
  (forall tool,
     PyText.count c (tool_html tool) = 4 + Nat.b2n (shows_path tool)) ->
  list_sum (map (PyText.count c) (map tool_html tools))
  = 4 * length tools + length (filter shows_path tools).
Proof.
  intros H. induction tools as [|tool tools IH]; [reflexivity|].
  cbn [map filter length]. rewrite list_sum_cons, IH, H.
  destruct (shows_path tool); simpl; lia.
Qed.

(** X18. The markup of the two texts of the dialog does not depend on what
    the application or a tool supplies: the number of [<], and of [>], in
    the technical text is 18, and 4 for each tool, and 1 more for each tool
    whose path is shown; in the identity text it is 2, and 4 for a version,
    4 for a commit date, 3 for a description, and 7 and 2 per feature when
    there are features. *)
Theorem dialog_markup_is_fixed (app_info : AppInfo) :
  let ident := AppInfo.identity app_info in
  let tools := AppInfo.tools app_info in
  let tech := 18 + 4 * length tools + length (filter shows_path tools) in
  let identity :=
    2 + 4 * Nat.b2n (PyText.truthy (AppIdentity.version ident))
    + 4 * Nat.b2n (PyText.truthy (AppIdentity.commit_date ident))
    + 3 * Nat.b2n (PyText.truthy (AppIdentity.description ident))
    + match AppIdentity.features ident with
      | [] => 0
      | features => 7 + 2 * length features
      end in
  PyText.count "<" (tech_html app_info) = tech
  /\ PyText.count ">" (tech_html app_info) = tech
  /\ PyText.count "<" (identity_html app_info) = identity
  /\ PyText.count ">" (identity_html app_info) = identity.
Proof.
  cbv zeta.
  assert (Hfeat : forall c features,
             (c = "<"%char \/ c = ">"%char) ->
             list_sum (map (PyText.count c)
                         (map (fun feat => ("<li>" ++ _esc feat ++ "</li>")%string)
                            features))
             = 2 * length features).
  { intros c features Hc. induction features as [|f features IH];
      [reflexivity|].
    cbn [map length]. rewrite list_sum_cons, IH.
    destruct Hc as [-> | ->]; count_markup; lia. }
  split; [|split; [|split]].
  - unfold tech_html. rewrite count_join. cbn [List.concat app map].
    rewrite !list_sum_cons, !map_app, !list_sum_app.
    rewrite (count_tools_html _ _ (fun t => proj1 (count_tool_html t))).
    cbn [map]. rewrite !list_sum_cons, list_sum_nil.
    unfold DQUOTE. count_markup. lia.
  - unfold tech_html. rewrite count_join. cbn [List.concat app map].
    rewrite !list_sum_cons, !map_app, !list_sum_app.
    rewrite (count_tools_html _ _ (fun t => proj2 (count_tool_html t))).
    cbn [map]. rewrite !list_sum_cons, list_sum_nil.
    unfold DQUOTE. count_markup. lia.
  - unfold identity_html. rewrite count_join.
    destruct (PyText.truthy (AppIdentity.version (AppInfo.identity app_info)));
      destruct (PyText.truthy
                  (AppIdentity.commit_date (AppInfo.identity app_info)));
      destruct (PyText.truthy
                  (AppIdentity.description (AppInfo.identity app_info)));
      destruct (AppIdentity.features (AppInfo.identity app_info))
        as [|f features];
      cbn [Nat.b2n length]; sum_pieces; rewrite ?Hfeat by auto;
      count_markup; lia.
  - unfold identity_html. rewrite count_join.
    destruct (PyText.truthy (AppIdentity.version (AppInfo.identity app_info)));
      destruct (PyText.truthy
                  (AppIdentity.commit_date (AppInfo.identity app_info)));
      destruct (PyText.truthy
                  (AppIdentity.description (AppInfo.identity app_info)));
      destruct (AppIdentity.features (AppInfo.identity app_info))
        as [|f features];
      cbn [Nat.b2n length]; sum_pieces; rewrite ?Hfeat by auto;
      count_markup; lia.
Qed.
